(** * Account REST service: the routing layer of [service/routes.py]

    A shallow embedding of the Flask handlers of [service/routes.py] and
    of the [Account] record they drive.  The handlers are translated
    statement by statement into a small state-and-exception monad over
    the database and the application log; the properties of the REST
    contract are then proved about those translations. *)

From Stdlib Require Import ZArith Lia Ascii.
From stdpp Require Import base option list gmap strings pretty.

Local Open Scope Z_scope.
Local Open Scope string_scope.

(** ** HTTP status codes *)

Module status.

(** Modelled from the spec: [service/common/status.py] is not part of
    the sources at hand; the numeric codes of this module are the ones
    the interface table of the specification gives for each outcome. *)
Definition HTTP_200_OK : Z := 200.
Definition HTTP_201_CREATED : Z := 201.
Definition HTTP_204_NO_CONTENT : Z := 204.
Definition HTTP_400_BAD_REQUEST : Z := 400.
Definition HTTP_404_NOT_FOUND : Z := 404.
Definition HTTP_415_UNSUPPORTED_MEDIA_TYPE : Z := 415.
End status.

(** ** JSON data *)

(** The JSON primitives that occur in request and response bodies. *)
Inductive value : Type :=
  | VNull
  | VBool (b : bool)
  | VInt (n : Z)
  | VStr (s : string).

#[global] Instance value_eq_dec : EqDecision value.
Proof. solve_decision. Defined.

(** A Python [dict] with string keys, as a finite map. *)
Abbreviation mapping := (gmap string value).

(** What a view function hands back to the framework as its body. *)
Inductive payload : Type :=
  | JsonObject (m : mapping)
  | JsonArray (l : list mapping)
  | Text (s : string).

Record response : Type := mk_response {
  status_code : Z;
  data : payload;
  headers_out : list (string * string)
}.

(** [jsonify(d)] for a dict and for a list of dicts. *)
Definition jsonify (m : mapping) : payload := JsonObject m.
Definition jsonify_list (l : list mapping) : payload := JsonArray l.

(** [make_response(body, status, headers)]. *)
Definition make_response (b : payload) (st : Z) (h : list (string * string))
  : response := mk_response st b h.

(** ** The incoming request *)

(** The parts of an incoming request the program depends on: the verb
    and path the URL map matches, the header table as
    [request.headers.get] reads it, the JSON object the body holds, and
    the root (scheme and host, no trailing slash) under which
    [url_for(..., _external=True)] builds absolute URLs. *)
Record request : Type := mk_request {
  method : string;
  path : string;
  headers : gmap string string;
  json : mapping;
  url_root : string
}.

(** The absolute URL a request is addressed to. *)
Definition url (req : request) : string := url_root req ++ path req.

(** ** Signals *)

(** The exceptions that can leave a handler: [abort(code, description)]
    raises an [HTTPException]; the model layer raises
    [DataValidationError]; [url_for] raises [BuildError] when the value
    for a variable part of the rule is missing. *)
Inductive signal : Type :=
  | HTTPException (code : Z) (description : string)
  | DataValidationError (key : string)
  | BuildError.

(** ** The Account record and its store *)

Module models.

(** ISO text of a calendar date, the form it has on the wire. *)
Abbreviation date := string (only parsing).

(** Modelled from the spec: [service/models.py] is not part of the
    sources at hand.  The attributes are those of the data model:
    identity (absent until the record is persisted), name and email
    (required strings), address and phone_number (optional strings),
    date_joined.  As in Python every attribute of a freshly
    constructed object is [None]. *)
Record Account : Type := mk_Account {
  id : option Z;
  name : option string;
  email : option string;
  address : option string;
  phone_number : option string;
  date_joined : option date
}.

#[global] Instance Account_eq_dec : EqDecision Account.
Proof. solve_decision. Defined.

(** [Account()] *)
Definition new : Account := mk_Account None None None None None None.

(** Modelled from the spec: the store owns the durable state; it keeps
    the persisted records in insertion order and hands out
    identities. *)
Record Store : Type := mk_Store {
  rows : list Account;
  next_id : Z
}.

Definition empty : Store := mk_Store [] 1.

End models.

Import models (Account, Store, mk_Account, mk_Store, rows, next_id).

(** ** Effects *)

(** What a handler does besides computing its answer, in program
    order. *)
Inductive event : Type :=
  | LoggerInfo (msg : string)
  | LoggerError (msg : string)
  | GetJson
  | Deserialize
  | DbCreate (i : Z)
  | DbFind (i : Z)
  | DbAll
  | DbUpdate (i : option Z)
  | DbDelete (i : option Z).

#[global] Instance event_eq_dec : EqDecision event.
Proof. solve_decision. Defined.

(** What [request.get_json()] of the installed framework does with a
    request whose declared type is not JSON: Werkzeug before 2.1
    returns [None], 2.1 and 2.2 raise 400 Bad Request, 2.3 and later
    raise 415 Unsupported Media Type. *)
Inductive non_json_policy : Type :=
  | returns_None
  | raises_400
  | raises_415.

(** The server state a request runs against: the database, the calls
    made so far, the calendar date the clock shows, and the framework
    the application is installed with. *)
Record World : Type := mk_World {
  db : Store;
  trace : list event;
  today : string;
  non_json : non_json_policy
}.

(** A computation either returns or raises, and threads the world. *)
Definition M (A : Type) : Type := World → (signal + A) * World.

Definition ret {A} (x : A) : M A := λ w, (inr x, w).

Definition bind {A B} (m : M A) (k : A → M B) : M B :=
  λ w, match m w with
       | (inl e, w') => (inl e, w')
       | (inr x, w') => k x w'
       end.

Definition raise {A} (e : signal) : M A := λ w, (inl e, w).

Definition emit (ev : event) : M unit :=
  λ w, (inr tt, mk_World (db w) (trace w ++ [ev]) (today w) (non_json w)).

Definition get_db : M Store := λ w, (inr (db w), w).

Definition put_db (s : Store) : M unit :=
  λ w, (inr tt, mk_World s (trace w) (today w) (non_json w)).

Definition get_today : M string := λ w, (inr (today w), w).

Definition get_non_json : M non_json_policy := λ w, (inr (non_json w), w).

#[global] Instance M_ret : MRet M := @ret.
#[global] Instance M_bind : MBind M := λ A B k m, bind m k.

(** [abort(code, description)] *)
Definition abort {A} (code : Z) (description : string) : M A :=
  raise (HTTPException code description).

(** [app.logger.info(...)], [app.logger.error(...)] *)
Definition logger_info (msg : string) : M unit := emit (LoggerInfo msg).
Definition logger_error (msg : string) : M unit := emit (LoggerError msg).

(** ASCII lower case. *)
Definition ascii_lower (c : Ascii.ascii) : Ascii.ascii :=
  let n := Ascii.N_of_ascii c in
  if (65 <=? n)%N && (n <=? 90)%N then Ascii.ascii_of_N (n + 32) else c.

Fixpoint lower (s : string) : string :=
  match s with
  | EmptyString => EmptyString
  | String c s' => String (ascii_lower c) (lower s')
  end.

(** The part of a header value before its first semicolon. *)
Fixpoint before_semicolon (s : string) : string :=
  match s with
  | EmptyString => EmptyString
  | String c s' => if Ascii.eqb c ";"%char then EmptyString else String c (before_semicolon s')
  end.

Fixpoint lstrip (s : string) : string :=
  match s with
  | EmptyString => EmptyString
  | String c s' => if Ascii.is_space c then lstrip s' else s
  end.

Definition strip (s : string) : string :=
  String.rev (lstrip (String.rev (lstrip s))).

Definition ends_with (suffix s : string) : bool :=
  String.prefix (String.rev suffix) (String.rev s).

(** [request.mimetype]: the declared type without its parameters, in
    lower case; empty when there is no Content-Type. *)
Definition mimetype (req : request) : string :=
  lower (strip (before_semicolon (default "" (headers req !! "Content-Type")))).

(** [request.is_json]: the declared type is application/json or
    application/...+json. *)
Definition is_json (req : request) : bool :=
  let mt := mimetype req in
  String.eqb mt "application/json"
  || (String.prefix "application/" mt && ends_with "+json" mt).

(** The description the framework gives when it refuses to read a body
    whose declared type is not JSON. *)
Definition not_json_description : string :=
  "Did not attempt to load JSON data because the request Content-Type was not 'application/json'.".

(** [request.get_json()], called without [force] or [silent]: the body
    is read only when the declared type is JSON; otherwise the
    framework answers by its own policy. *)
Definition get_json (req : request) : M (option mapping) :=
  emit GetJson;;
  if is_json req then mret (Some (json req))
  else
    policy ← get_non_json;
    match policy with
    | returns_None => mret None
    | raises_400 => abort 400 not_json_description
    | raises_415 => abort status.HTTP_415_UNSUPPORTED_MEDIA_TYPE not_json_description
    end.

(** [str(x)] of an optional string, as [%s] formats it. *)
Definition str_opt (o : option string) : string :=
  match o with
  | None => "None"
  | Some s => s
  end.

(** ** Utility functions *)

(** [check_content_type(media_type)].  The test
    [content_type and content_type == media_type] is written out: a
    missing header ([None]) and an empty one are both falsy. *)
Definition check_content_type (req : request) (media_type : string) : M unit :=
  let content_type := headers req !! "Content-Type" in
  if match content_type with
     | None => false
     | Some ct => negb (String.eqb ct "") && String.eqb ct media_type
     end
  then mret tt
  else
    logger_error ("Invalid Content-Type: " ++ str_opt content_type);;
    abort status.HTTP_415_UNSUPPORTED_MEDIA_TYPE
          ("Content-Type must be " ++ media_type).

(** ** Operations of the Account record *)

Module Account_ops.
Import models.

(** Modelled from the spec: a required key of the inbound mapping must
    be present and hold a string; otherwise deserialization signals a
    validation error naming the key. *)
Definition required (d : mapping) (key : string) : M string :=
  match d !! key with
  | Some (VStr s) => mret s
  | _ => raise (DataValidationError key)
  end.

(** Modelled from the spec: an optional string attribute is taken from
    the mapping when it is there. *)
Definition optional (d : mapping) (key : string) : option string :=
  match d !! key with
  | Some (VStr s) => Some s
  | _ => None
  end.

(** Modelled from the spec: [Account.deserialize(mapping)] populates the
    attributes from the inbound mapping and fails with a validation
    error if a required key (name, email) is absent or malformed.  The
    identity is not an attribute a client can set; date_joined defaults
    to the current date.  Handed [None] instead of a mapping, it fails
    at the first key it asks for. *)
Definition deserialize (self : Account) (data : option mapping) : M Account :=
  emit Deserialize;;
  match data with
  | None => raise (DataValidationError "name")
  | Some d =>
      n ← required d "name";
      e ← required d "email";
      t ← get_today;
      mret (mk_Account (id self) (Some n) (Some e)
              (optional d "address") (optional d "phone_number")
              (Some (default t (optional d "date_joined"))))
  end.

(** Modelled from the spec: [Account.create()] persists a new record and
    assigns its identity; it fails if a required field is missing. *)
Definition create (self : Account) : M Account :=
  match name self, email self with
  | None, _ => raise (DataValidationError "name")
  | _, None => raise (DataValidationError "email")
  | Some _, Some _ =>
      s ← get_db;
      t ← get_today;
      let i := next_id s in
      let a := mk_Account (Some i) (name self) (email self)
                 (address self) (phone_number self)
                 (Some (default t (date_joined self))) in
      emit (DbCreate i);;
      put_db (mk_Store (rows s ++ [a]) (i + 1));;
      mret a
  end.

Definition has_id (i : Z) (a : Account) : bool := bool_decide (id a = Some i).

(** Modelled from the spec: [Account.find(id)] returns the record with
    that identity, or [None] if there is none. *)
Definition find (i : Z) : M (option Account) :=
  emit (DbFind i);;
  s ← get_db;
  mret (List.find (has_id i) (rows s)).

(** Modelled from the spec: [Account.all()] returns every persisted
    record, in insertion order. *)
Definition all : M (list Account) :=
  emit DbAll;;
  s ← get_db;
  mret (rows s).

(** Modelled from the spec: [Account.update()] overwrites the persisted
    record's attributes with the current values of the in-memory
    copy. *)
Definition update (self : Account) : M unit :=
  emit (DbUpdate (id self));;
  s ← get_db;
  put_db (mk_Store
            (map (λ r, if bool_decide (id r = id self) then self else r) (rows s))
            (next_id s)).

(** Modelled from the spec: [Account.delete()] removes the persisted
    record from the store. *)
Definition delete (self : Account) : M unit :=
  emit (DbDelete (id self));;
  s ← get_db;
  put_db (mk_Store
            (List.filter (λ r, negb (bool_decide (id r = id self))) (rows s))
            (next_id s)).

Definition opt_value {A} (f : A → value) (o : option A) : value :=
  match o with
  | None => VNull
  | Some x => f x
  end.

(** Modelled from the spec: [Account.serialize()] produces the mapping
    from attribute name to value, of shape
    [{id, name, email, address, phone_number, date_joined}]. *)
Definition serialize (self : Account) : mapping :=
  list_to_map
    [ ("id", opt_value VInt (id self));
      ("name", opt_value VStr (name self));
      ("email", opt_value VStr (email self));
      ("address", opt_value VStr (address self));
      ("phone_number", opt_value VStr (phone_number self));
      ("date_joined", opt_value VStr (date_joined self)) ].

End Account_ops.

(** ** The routes *)

(** [url_for("get_accounts", account_id=..., _external=True)]: the
    absolute URL of the rule [/accounts/<int:account_id>]. *)
Definition get_accounts_url (root : string) (account_id : Z) : string :=
  root ++ "/accounts/" ++ pretty account_id.

Definition url_for_get_accounts (req : request) (account_id : option Z)
  : M string :=
  match account_id with
  | Some i => mret (get_accounts_url (url_root req) i)
  | None => raise BuildError
  end.

(** The description all three by-id handlers give to [abort]. *)
Definition not_found_message (account_id : Z) : string :=
  "Account with id [" ++ pretty account_id ++ "] could not be found.".

Definition health : M response :=
  mret (mk_response status.HTTP_200_OK
          (jsonify {[ "status" := VStr "OK" ]}) []).

Definition index : M response :=
  mret (mk_response status.HTTP_200_OK
          (jsonify (<[ "name" := VStr "Account REST API Service" ]>
                      {[ "version" := VStr "1.0" ]})) []).

(** [POST /accounts] *)
Definition create_accounts (req : request) : M response :=
  logger_info "Request to create an Account";;
  check_content_type req "application/json";;
  let account := models.new in
  d ← get_json req;
  account ← Account_ops.deserialize account d;
  account ← Account_ops.create account;
  let message := Account_ops.serialize account in
  location_url ← url_for_get_accounts req (models.id account);
  mret (make_response (jsonify message) status.HTTP_201_CREATED
          [("Location", location_url)]).

(** [GET /accounts] *)
Definition list_accounts : M response :=
  logger_info "Request to list all Accounts";;
  accounts ← Account_ops.all;
  let results := map Account_ops.serialize accounts in
  mret (mk_response status.HTTP_200_OK (jsonify_list results) []).

(** [GET /accounts/<int:account_id>].  [if not account] holds exactly
    when [find] gave [None]: a record object is truthy. *)
Definition get_accounts (account_id : Z) : M response :=
  logger_info ("Request to read an Account with id: " ++ pretty account_id);;
  account ← Account_ops.find account_id;
  match account with
  | None => abort status.HTTP_404_NOT_FOUND (not_found_message account_id)
  | Some account =>
      mret (mk_response status.HTTP_200_OK
              (jsonify (Account_ops.serialize account)) [])
  end.

(** [PUT /accounts/<int:account_id>].  The handler returns the dict
    itself, which the framework sends as a JSON object. *)
Definition update_accounts (account_id : Z) (req : request) : M response :=
  logger_info ("Request to update an Account with id: " ++ pretty account_id);;
  account ← Account_ops.find account_id;
  match account with
  | None => abort status.HTTP_404_NOT_FOUND (not_found_message account_id)
  | Some account =>
      d ← get_json req;
      account ← Account_ops.deserialize account d;
      Account_ops.update account;;
      mret (mk_response status.HTTP_200_OK
              (JsonObject (Account_ops.serialize account)) [])
  end.

(** [DELETE /accounts/<int:account_id>] *)
Definition delete_account (account_id : Z) : M response :=
  logger_info ("Request to delete Account with id: " ++ pretty account_id);;
  account ← Account_ops.find account_id;
  match account with
  | None => abort status.HTTP_404_NOT_FOUND (not_found_message account_id)
  | Some account =>
      Account_ops.delete account;;
      mret (mk_response status.HTTP_204_NO_CONTENT (Text "") [])
  end.

(** ** The URL map *)

(** The view functions registered by the [@app.route] decorators, with
    the value of the variable part of the rule. *)
Inductive view : Type :=
  | view_health
  | view_index
  | view_create_accounts
  | view_list_accounts
  | view_get_accounts (account_id : Z)
  | view_update_accounts (account_id : Z)
  | view_delete_account (account_id : Z).

(** Reading a run of decimal digits, most significant first. *)
Fixpoint digits_go (acc : N) (s : string) : option N :=
  match s with
  | EmptyString => Some acc
  | String c s' =>
      match Ascii.is_nat c with
      | Some d => digits_go (acc * 10 + N.of_nat d) s'
      | None => None
      end
  end.

(** The [<int:...>] converter: one or more digits, no sign. *)
Definition int_converter (s : string) : option Z :=
  match s with
  | EmptyString => None
  | _ => Z.of_N <$> digits_go 0 s
  end.

(** [strip_prefix p s] is [Some r] exactly when [s] is [p] followed by
    [r]. *)
Fixpoint strip_prefix (p s : string) : option string :=
  match p, s with
  | EmptyString, _ => Some s
  | String a p', String b s' =>
      if Ascii.eqb a b then strip_prefix p' s' else None
  | String _ _, EmptyString => None
  end.

(** The rules, in the order of the source, each with the verbs its
    decorator lists ([GET] when it lists none).  [None] stands for a
    request that none of these rules serves. *)
Definition url_map (verb p : string) : option view :=
  if String.eqb p "/health" then
    if String.eqb verb "GET" then Some view_health else None
  else if String.eqb p "/" then
    if String.eqb verb "GET" then Some view_index else None
  else if String.eqb p "/accounts" then
    if String.eqb verb "POST" then Some view_create_accounts
    else if String.eqb verb "GET" then Some view_list_accounts
    else None
  else
    match strip_prefix "/accounts/" p with
    | None => None
    | Some rest =>
        match int_converter rest with
        | None => None
        | Some account_id =>
            if String.eqb verb "GET" then Some (view_get_accounts account_id)
            else if String.eqb verb "PUT" then Some (view_update_accounts account_id)
            else if String.eqb verb "DELETE" then Some (view_delete_account account_id)
            else None
        end
    end.

(** Calling a view function on the current request. *)
Definition call (v : view) (req : request) : M response :=
  match v with
  | view_health => health
  | view_index => index
  | view_create_accounts => create_accounts req
  | view_list_accounts => list_accounts
  | view_get_accounts account_id => get_accounts account_id
  | view_update_accounts account_id => update_accounts account_id req
  | view_delete_account account_id => delete_account account_id
  end.

(** Serving a request: the view the URL map selects, if any. *)
Definition dispatch (req : request) : option (M response) :=
  (λ v, call v req) <$> url_map (method req) (path req).

(** ** What the client sees *)

(** Modelled from the spec: the error handlers of
    [service/common/error_handlers.py] are not part of the sources at
    hand.  An aborted request carries the code given to [abort]; a
    validation error is surfaced as a bad request.  An exception that
    nothing handles is answered 500 by the framework. *)
Definition status_of (o : signal + response) : Z :=
  match o with
  | inr r => status_code r
  | inl (HTTPException code _) => code
  | inl (DataValidationError _) => status.HTTP_400_BAD_REQUEST
  | inl BuildError => 500
  end.

(** Running a handler: the outcome and the world it leaves. *)
Definition outcome {A} (m : M A) (w : World) : signal + A := fst (m w).
Definition after {A} (m : M A) (w : World) : World := snd (m w).

(** The events a handler adds to the trace. *)
Definition emitted {A} (m : M A) (w : World) : list event :=
  drop (length (trace w)) (trace (after m w)).

(** ** The store invariant *)

(** A persisted record has an identity, and one the store has already
    handed out. *)
Definition persisted_below (n : Z) (a : Account) : bool :=
  match models.id a with
  | Some i => bool_decide (i < n)
  | None => false
  end.

(** Identities are unique, every one of them lies below the next
    identity the store will assign, and that one is not negative. *)
Definition wf_store (s : Store) : Prop :=
  NoDup (map models.id (rows s))
  ∧ Forall (λ a, persisted_below (next_id s) a) (rows s)
  ∧ (0 ≤ next_id s)%Z.

#[global] Instance wf_store_dec s : Decision (wf_store s).
Proof. unfold wf_store. apply _. Defined.

(** An account with identity [i] is in the store. *)
Definition exists_in (s : Store) (i : Z) : Prop :=
  ∃ a, a ∈ rows s ∧ models.id a = Some i.

(** The world after a handler has added [evs] to the trace. *)
Definition logged (w : World) (evs : list event) : World :=
  mk_World (db w) (trace w ++ evs) (today w) (non_json w).

(** The record [deserialize] leaves in memory for a body with name [n]
    and email [e], on a copy whose identity is [i]. *)
Definition populated (i : option Z) (d : mapping) (n e : string) (t : string)
  : Account :=
  mk_Account i (Some n) (Some e)
    (Account_ops.optional d "address") (Account_ops.optional d "phone_number")
    (Some (default t (Account_ops.optional d "date_joined"))).

(** The record [deserialize] followed by [create] puts in the store for
    a body with name [n] and email [e]. *)
Definition created (d : mapping) (n e : string) (i : Z) (t : string) : Account :=
  populated (Some i) d n e t.

(** The body holds the required fields. *)
Definition has_required (d : mapping) : bool :=
  match d !! "name", d !! "email" with
  | Some (VStr _), Some (VStr _) => true
  | _, _ => false
  end.

(** A creation request the service accepts. *)
Definition acceptable (req : request) : bool :=
  bool_decide (headers req !! "Content-Type" = Some "application/json")
  && has_required (json req).


(** What one operation of the record can do to the store: nothing, add
    a record under the next identity, replace records keeping every
    identity in place, or drop the records of one identity. *)
Inductive store_step (s : Store) : Store → Prop :=
  | step_none : store_step s s
  | step_add a :
      models.id a = Some (next_id s) →
      store_step s (mk_Store (rows s ++ [a]) (next_id s + 1))
  | step_replace l :
      map models.id l = map models.id (rows s) →
      store_step s (mk_Store l (next_id s))
  | step_drop o :
      store_step s
        (mk_Store (List.filter (λ r, negb (bool_decide (models.id r = o))) (rows s))
           (next_id s)).

(** Serving a sequence of requests one after the other; a request that
    reaches no view leaves the world as it is. *)
Definition serve (w : World) (req : request) : World :=
  match dispatch req with
  | Some m => after m w
  | None => w
  end.

Definition serve_all (reqs : list request) (w : World) : World :=
  fold_left serve reqs w.

(** Creating one account after the other. *)
Definition create_all (reqs : list request) (w : World) : World :=
  fold_left (λ w req, after (create_accounts req) w) reqs w.

(** The rows after [update()] of the in-memory copy [a]. *)
Definition replaced (a : Account) (l : list Account) : list Account :=
  map (λ r, if bool_decide (models.id r = models.id a) then a else r) l.

(** No stored identity is negative, so each can be spelt in a URL. *)
Definition ids_unsigned (s : Store) : Prop :=
  ∀ o, o ∈ map models.id (rows s) → ∃ i, o = Some i ∧ (0 ≤ i)%Z.

(** ** The test suite of [tests/test_routes.py] *)

Module tests.
Import models.

Definition BASE_URL : string := "/accounts".

(** What a call of the test client gives back: the outcome of the view
    and the world it leaves; [None] when no rule of the application
    serves the request. *)
Definition reply : Type := option ((signal + response) * World).

(** [self.client.open(...)]: a body passed as [json=] is sent as
    application/json unless [content_type=] says otherwise; without
    either the request carries no Content-Type. *)
Definition client_open (verb p : string) (body : option mapping)
    (content_type : option string) (w : World) : reply :=
  let h : gmap string string :=
    match content_type, body with
    | Some ct, _ => {[ "Content-Type" := ct ]}
    | None, Some _ => {[ "Content-Type" := "application/json" ]}
    | None, None => ∅
    end in
  let req := mk_request verb p h (default ∅ body) "http://localhost" in
  (λ m, m w) <$> dispatch req.

(** [response.status_code] *)
Definition status_code_of (r : (signal + response) * World) : Z := status_of (fst r).

(** [response.get_json()] of an answer that carries a JSON object. *)
Definition get_json_object (r : (signal + response) * World) : option mapping :=
  match fst r with
  | inr (mk_response _ (JsonObject m) _) => Some m
  | _ => None
  end.

(** [response.get_json()] of an answer that carries a JSON sequence. *)
Definition get_json_array (r : (signal + response) * World) : option (list mapping) :=
  match fst r with
  | inr (mk_response _ (JsonArray l) _) => Some l
  | _ => None
  end.

(** [response.headers.get("Location", None)] *)
Definition location_of (r : (signal + response) * World) : option string :=
  match fst r with
  | inr resp => snd <$> List.find (λ kv, String.eqb (fst kv) "Location") (headers_out resp)
  | inl _ => None
  end.

(** An identity read out of a JSON body. *)
Definition as_id (v : value) : option (option Z) :=
  match v with
  | VInt i => Some (Some i)
  | VNull => Some None
  | _ => None
  end.

(** [f"{BASE_URL}/{account.id}"] *)
Definition account_url (i : option Z) : string :=
  BASE_URL ++ "/" ++ match i with Some n => pretty n | None => "None" end.

(** [setUp]: the accounts of the last test are deleted; the sequence
    that hands out identities is not reset. *)
Definition setUp (w : World) : World :=
  mk_World (mk_Store [] (next_id (db w))) (trace w) (today w) (non_json w).

(** [_create_accounts(count)].  The accounts [AccountFactory()] makes,
    one per turn of the loop, are given as the list [factory]; [None]
    stands for a failed assertion or an error. *)
Fixpoint create_accounts_loop (factory accounts : list Account) (w : World)
  : option (list Account * World) :=
  match factory with
  | [] => Some (accounts, w)
  | account :: factory' =>
      match client_open "POST" BASE_URL (Some (Account_ops.serialize account)) None w with
      | None => None
      | Some response =>
          if negb (bool_decide (status_code_of response = status.HTTP_201_CREATED))
          then None
          else
            match get_json_object response with
            | None => None
            | Some new_account =>
                match new_account !! "id" with
                | None => None
                | Some v =>
                    match as_id v with
                    | None => None
                    | Some i =>
                        let account :=
                          mk_Account i (name account) (email account)
                            (address account) (phone_number account)
                            (date_joined account) in
                        create_accounts_loop factory' (accounts ++ [account])
                          (snd response)
                    end
                end
            end
      end
  end.

Definition _create_accounts (factory : list Account) (w : World)
  : option (list Account * World) :=
  create_accounts_loop factory [] w.

(** The factory made the account with its required attributes. *)
Definition has_name_email (a : Account) : bool :=
  match name a, email a with
  | Some _, Some _ => true
  | _, _ => false
  end.

(** The accounts of [l], carrying the identities [n], [n + 1], ... *)
Fixpoint stamped (l : list Account) (n : Z) : list Account :=
  match l with
  | [] => []
  | a :: l' =>
      mk_Account (Some n) (name a) (email a) (address a) (phone_number a)
        (date_joined a) :: stamped l' (n + 1)
  end.

(** The comparison of a JSON field with an attribute of the record. *)
Definition field_is (m : mapping) (key : string) (o : option string) : bool :=
  bool_decide (m !! key = Some (Account_ops.opt_value VStr o)).

Definition test_index (w : World) : bool :=
  match client_open "GET" "/" None None w with
  | None => false
  | Some response => bool_decide (status_code_of response = status.HTTP_200_OK)
  end.

Definition test_health (w : World) : bool :=
  match client_open "GET" "/health" None None w with
  | None => false
  | Some resp =>
      bool_decide (status_code_of resp = 200)
      && match get_json_object resp with
         | None => false
         | Some data => bool_decide (data !! "status" = Some (VStr "OK"))
         end
  end.

Definition test_create_account (account : Account) (w : World) : bool :=
  match client_open "POST" BASE_URL (Some (Account_ops.serialize account))
          (Some "application/json") w with
  | None => false
  | Some response =>
      bool_decide (status_code_of response = status.HTTP_201_CREATED)
      && bool_decide (is_Some (location_of response))
      && match get_json_object response with
         | None => false
         | Some new_account =>
             field_is new_account "name" (name account)
             && field_is new_account "email" (email account)
             && field_is new_account "address" (address account)
             && field_is new_account "phone_number" (phone_number account)
             && bool_decide (new_account !! "date_joined"
                             = Some (VStr (str_opt (date_joined account))))
         end
  end.

Definition test_bad_request (w : World) : bool :=
  match client_open "POST" BASE_URL (Some {[ "name" := VStr "not enough data" ]})
          None w with
  | None => false
  | Some response =>
      bool_decide (status_code_of response = status.HTTP_400_BAD_REQUEST)
  end.

Definition test_unsupported_media_type (account : Account) (w : World) : bool :=
  match client_open "POST" BASE_URL (Some (Account_ops.serialize account))
          (Some "test/html") w with
  | None => false
  | Some response =>
      bool_decide (status_code_of response = status.HTTP_415_UNSUPPORTED_MEDIA_TYPE)
  end.

Definition test_get_account (fake : Account) (w : World) : bool :=
  match _create_accounts [fake] w with
  | Some (account :: _, w) =>
      match client_open "GET" (account_url (id account)) None
              (Some "application/json") w with
      | None => false
      | Some resp =>
          bool_decide (status_code_of resp = status.HTTP_200_OK)
          && match get_json_object resp with
             | None => false
             | Some data => field_is data "name" (name account)
             end
      end
  | _ => false
  end.

Definition test_get_account_not_found (w : World) : bool :=
  match client_open "GET" (BASE_URL ++ "/0") None None w with
  | None => false
  | Some resp => bool_decide (status_code_of resp = status.HTTP_404_NOT_FOUND)
  end.

Definition test_list_accounts (fake1 fake2 fake3 : Account) (w : World) : bool :=
  match _create_accounts [fake1; fake2; fake3] w with
  | None => false
  | Some (_, w) =>
      match client_open "GET" BASE_URL None None w with
      | None => false
      | Some resp =>
          bool_decide (status_code_of resp = status.HTTP_200_OK)
          && match get_json_array resp with
             | None => false
             | Some data => bool_decide (length data = 3%nat)
             end
      end
  end.

Definition updated_data : mapping :=
  <[ "name" := VStr "Updated Name" ]> {[ "email" := VStr "updated@example.com" ]}.

Definition test_update_existing_account (w : World) : bool :=
  let test_account :=
    mk_Account None (Some "Old Name") (Some "old@example.com") None None None in
  match Account_ops.create test_account w with
  | (inl _, _) => false
  | (inr test_account, w) =>
      match client_open "PUT" (account_url (id test_account)) (Some updated_data)
              None w with
      | None => false
      | Some resp =>
          bool_decide (status_code_of resp = status.HTTP_200_OK)
          && match id test_account with
             | None => false
             | Some i =>
                 match fst (Account_ops.find i (snd resp)) with
                 | inr (Some updated_account) =>
                     bool_decide (name updated_account = Some "Updated Name")
                     && bool_decide (email updated_account
                                     = Some "updated@example.com")
                 | _ => false
                 end
             end
          && match get_json_object resp with
             | None => false
             | Some response_data =>
                 bool_decide (response_data !! "name" = Some (VStr "Updated Name"))
                 && bool_decide (response_data !! "email"
                                 = Some (VStr "updated@example.com"))
             end
      end
  end.

Definition test_update_nonexistent_account (w : World) : bool :=
  match client_open "PUT" (BASE_URL ++ "/99999") (Some updated_data) None w with
  | None => false
  | Some resp => bool_decide (status_code_of resp = status.HTTP_404_NOT_FOUND)
  end.

Definition test_delete_account_not_found (w : World) : bool :=
  match client_open "DELETE" (BASE_URL ++ "/0") None None w with
  | None => false
  | Some resp => bool_decide (status_code_of resp = status.HTTP_404_NOT_FOUND)
  end.

Definition test_delete_existing_account (w : World) : bool :=
  let test_account :=
    mk_Account None (Some "Delete Me") (Some "delete@example.com") None None None in
  match Account_ops.create test_account w with
  | (inl _, _) => false
  | (inr test_account, w) =>
      match id test_account with
      | None => false
      | Some i =>
          match fst (Account_ops.find i w) with
          | inr (Some _) =>
              let w := snd (Account_ops.find i w) in
              match client_open "DELETE" (account_url (id test_account)) None None w with
              | None => false
              | Some resp =>
                  bool_decide (status_code_of resp = status.HTTP_204_NO_CONTENT)
                  && match fst (Account_ops.find i (snd resp)) with
                     | inr None => true
                     | _ => false
                     end
              end
          | _ => false
          end
      end
  end.

End tests.

(** ** Sample data *)

Module sample.

Definition json_headers : gmap string string :=
  {[ "Content-Type" := "application/json" ]}.

Definition html_headers : gmap string string :=
  {[ "Content-Type" := "text/html" ]}.

Definition ann : mapping :=
  <[ "name" := VStr "Ann" ]> {[ "email" := VStr "ann@example.com" ]}.

Definition bob : mapping :=
  <[ "name" := VStr "Bob" ]>
    (<[ "email" := VStr "bob@example.com" ]> {[ "address" := VStr "1 Main St" ]}).

Definition only_name : mapping := {[ "name" := VStr "x" ]}.

Definition post (h : gmap string string) (d : mapping) : request :=
  mk_request "POST" "/accounts" h d "http://localhost".

Definition get (p : string) : request :=
  mk_request "GET" p ∅ ∅ "http://localhost".

Definition put (p : string) (d : mapping) : request :=
  mk_request "PUT" p json_headers d "http://localhost".

(** A server that has not yet seen a request. *)
Definition fresh : World := mk_World models.empty [] "2024-05-17" raises_415.

(** Two accounts as a factory would make them. *)
Definition fake_carl : Account :=
  mk_Account None (Some "Carl") (Some "carl@example.com") (Some "9 Elm Rd") None
    (Some "2020-02-02").

Definition fake_dora : Account :=
  mk_Account None (Some "Dora") (Some "dora@example.com") None (Some "555-0100")
    (Some "2021-03-04").

(** Ann's account as the store holds it once created there. *)
Definition ann_account : Account :=
  mk_Account (Some 1) (Some "Ann") (Some "ann@example.com") None None
    (Some "2024-05-17").

(** The same server after Ann's account has been created. *)
Definition with_ann : World := after (create_accounts (post json_headers ann)) fresh.

(** And after Bob's account has been created too, under identity 2. *)
Definition with_ann_bob : World :=
  after (create_accounts (post json_headers bob)) with_ann.

Definition carol : mapping :=
  <[ "name" := VStr "Carol" ]> {[ "email" := VStr "carol@example.com" ]}.

End sample.

(** * Properties *)

(** ** Running the monad *)

Ltac unfold_M :=
  unfold outcome, after, emitted, abort, raise, logger_info, logger_error,
    get_json, get_db, put_db, get_today, emit,
    mbind, M_bind, bind, mret, M_ret, ret in *.

(** The content-type test succeeds exactly on the media type itself. *)
Lemma check_content_type_accepts req media_type w :
  media_type ≠ "" →
  headers req !! "Content-Type" = Some media_type →
  check_content_type req media_type w = (inr tt, w).
Proof.
  intros Hne Hct. unfold check_content_type. rewrite Hct.
  rewrite String.eqb_refl.
  destruct (String.eqb_spec media_type "") as [->|_]; [done|].
  reflexivity.
Qed.

Lemma check_content_type_rejects req media_type w :
  headers req !! "Content-Type" ≠ Some media_type →
  check_content_type req media_type w =
    (inl (HTTPException status.HTTP_415_UNSUPPORTED_MEDIA_TYPE
            ("Content-Type must be " ++ media_type)),
     mk_World (db w)
       (trace w ++ [LoggerError ("Invalid Content-Type: "
                                   ++ str_opt (headers req !! "Content-Type"))])
       (today w) (non_json w)).
Proof.
  intros Hct. unfold check_content_type.
  destruct (headers req !! "Content-Type") as [ct|] eqn:E.
  - destruct (String.eqb_spec ct media_type) as [->|_]; [done|].
    rewrite andb_false_r. reflexivity.
  - reflexivity.
Qed.

(** An exact application/json declares a JSON body. *)
Lemma is_json_exact req :
  headers req !! "Content-Type" = Some "application/json" → is_json req = true.
Proof. intros H. unfold is_json, mimetype. by rewrite H. Qed.

Lemma get_json_run_json req w :
  is_json req = true →
  get_json req w = (inr (Some (json req)), logged w [GetJson]).
Proof. intros H. unfold get_json. unfold_M. simpl. by rewrite H. Qed.

Lemma get_json_run_not_json req w :
  is_json req = false →
  get_json req w
  = (match non_json w with
     | returns_None => inr None
     | raises_400 => inl (HTTPException 400 not_json_description)
     | raises_415 => inl (HTTPException 415 not_json_description)
     end, logged w [GetJson]).
Proof.
  intros H. unfold get_json, get_non_json, logged. unfold_M. simpl. rewrite H.
  simpl. by destruct (non_json w).
Qed.

Lemma get_json_db req w : db (snd (get_json req w)) = db w.
Proof.
  destruct (is_json req) eqn:E.
  - by rewrite get_json_run_json.
  - by rewrite get_json_run_not_json.
Qed.

(** What [create_accounts] does when the media-type check fails. *)
Lemma create_accounts_rejected req w :
  headers req !! "Content-Type" ≠ Some "application/json" →
  create_accounts req w =
    (inl (HTTPException 415 "Content-Type must be application/json"),
     mk_World (db w)
       (trace w ++ [LoggerInfo "Request to create an Account";
                    LoggerError ("Invalid Content-Type: "
                                   ++ str_opt (headers req !! "Content-Type"))])
       (today w) (non_json w)).
Proof.
  intros Hct. unfold create_accounts.
  unfold mbind at 1, M_bind, bind at 1. unfold logger_info at 1, emit at 1.
  unfold mbind at 1, bind at 1.
  rewrite check_content_type_rejects by done. simpl.
  by rewrite <- app_assoc.
Qed.

(** ** The media-type check *)

(** C2: a POST /accounts whose Content-Type header is present but is not
    exactly the string application/json is answered 415; the handler
    logs the rejection and stops there: the body is not read, nothing is
    deserialized, nothing is created, and the database is as it was. *)
Theorem create_accounts_wrong_media_type (req : request) (w : World) (ct : string) :
  headers req !! "Content-Type" = Some ct →
  ct ≠ "application/json" →
  outcome (create_accounts req) w
    = inl (HTTPException 415 "Content-Type must be application/json")
  ∧ status_of (outcome (create_accounts req) w)
    = status.HTTP_415_UNSUPPORTED_MEDIA_TYPE
  ∧ emitted (create_accounts req) w
    = [LoggerInfo "Request to create an Account";
       LoggerError ("Invalid Content-Type: " ++ ct)]
  ∧ (GetJson ∉ emitted (create_accounts req) w)
  ∧ (Deserialize ∉ emitted (create_accounts req) w)
  ∧ (∀ i, DbCreate i ∉ emitted (create_accounts req) w)
  ∧ db (after (create_accounts req) w) = db w.
Proof.
  intros Hct Hne.
  assert (headers req !! "Content-Type" ≠ Some "application/json") as Hrej
    by (rewrite Hct; congruence).
  unfold emitted, outcome, after.
  rewrite (create_accounts_rejected req w Hrej), Hct. simpl.
  rewrite drop_app_length.
  repeat split; try done.
  - intros H. repeat (apply elem_of_cons in H as [H|H]; [discriminate|]).
    by apply elem_of_nil in H.
  - intros H. repeat (apply elem_of_cons in H as [H|H]; [discriminate|]).
    by apply elem_of_nil in H.
  - intros i H. repeat (apply elem_of_cons in H as [H|H]; [discriminate|]).
    by apply elem_of_nil in H.
Qed.

Lemma create_accounts_wrong_media_type_witness :
  status_of (outcome (create_accounts (sample.post sample.html_headers sample.ann))
               sample.fresh) = 415
  ∧ db (after (create_accounts (sample.post sample.html_headers sample.ann))
          sample.fresh) = models.empty.
Proof.
  destruct (create_accounts_wrong_media_type
              (sample.post sample.html_headers sample.ann) sample.fresh "text/html")
    as (_ & Hst & _ & _ & _ & _ & Hdb).
  - vm_compute. reflexivity.
  - discriminate.
  - split; [exact Hst | exact Hdb].
Defined.

(** C9: a POST /accounts without any Content-Type header is answered 415
    in the same way: the check treats the missing header like a wrong
    one, and the body is never read. *)
Theorem create_accounts_no_content_type (req : request) (w : World) :
  headers req !! "Content-Type" = None →
  outcome (create_accounts req) w
    = inl (HTTPException 415 "Content-Type must be application/json")
  ∧ status_of (outcome (create_accounts req) w)
    = status.HTTP_415_UNSUPPORTED_MEDIA_TYPE
  ∧ emitted (create_accounts req) w
    = [LoggerInfo "Request to create an Account";
       LoggerError "Invalid Content-Type: None"]
  ∧ (GetJson ∉ emitted (create_accounts req) w)
  ∧ (Deserialize ∉ emitted (create_accounts req) w)
  ∧ db (after (create_accounts req) w) = db w.
Proof.
  intros Hct.
  assert (headers req !! "Content-Type" ≠ Some "application/json") as Hrej
    by (rewrite Hct; congruence).
  unfold emitted, outcome, after.
  rewrite (create_accounts_rejected req w Hrej), Hct. simpl.
  rewrite drop_app_length.
  repeat split; try done.
  - intros H. repeat (apply elem_of_cons in H as [H|H]; [discriminate|]).
    by apply elem_of_nil in H.
  - intros H. repeat (apply elem_of_cons in H as [H|H]; [discriminate|]).
    by apply elem_of_nil in H.
Qed.

Lemma create_accounts_no_content_type_witness :
  status_of (outcome (create_accounts (sample.post ∅ sample.ann)) sample.fresh) = 415.
Proof.
  destruct (create_accounts_no_content_type (sample.post ∅ sample.ann) sample.fresh)
    as (_ & Hst & _).
  - vm_compute. reflexivity.
  - exact Hst.
Defined.

(** ** Looking up by identity *)

Lemma has_id_true i a : Account_ops.has_id i a = true ↔ models.id a = Some i.
Proof. unfold Account_ops.has_id. by rewrite bool_decide_eq_true. Qed.

Lemma find_has_id i l a :
  List.find (Account_ops.has_id i) l = Some a → a ∈ l ∧ models.id a = Some i.
Proof.
  intros H. apply find_some in H as [Hin Hid].
  split; [by apply list_elem_of_In | by apply has_id_true].
Qed.

Lemma find_absent i l :
  List.find (Account_ops.has_id i) l = None ↔ ∀ a, a ∈ l → models.id a ≠ Some i.
Proof.
  induction l as [|b l IH]; simpl.
  - split; [intros _ a Ha; by apply elem_of_nil in Ha | done].
  - destruct (Account_ops.has_id i b) eqn:E.
    + split; [done|]. intros H. apply has_id_true in E.
      destruct (H b); [left | done].
    + rewrite IH. split.
      * intros H a Ha. apply elem_of_cons in Ha as [->|Ha]; [|by apply H].
        intros Hid. apply has_id_true in Hid. congruence.
      * intros H a Ha. apply H. by right.
Qed.

Lemma find_unique i l a :
  NoDup (map models.id l) → a ∈ l → models.id a = Some i →
  List.find (Account_ops.has_id i) l = Some a.
Proof.
  induction l as [|b l IH]; simpl; intros Hnd Hin Hid.
  - by apply elem_of_nil in Hin.
  - apply NoDup_cons in Hnd as [Hb Hnd].
    apply elem_of_cons in Hin as [->|Hin].
    + apply has_id_true in Hid. by rewrite Hid.
    + destruct (Account_ops.has_id i b) eqn:E; [|by apply IH].
      apply has_id_true in E. destruct Hb.
      rewrite E, <- Hid. by apply list_elem_of_fmap_2.
Qed.

Lemma find_exists i s :
  exists_in s i → ∃ a, List.find (Account_ops.has_id i) (rows s) = Some a.
Proof.
  intros (a & Hin & Hid).
  destruct (List.find (Account_ops.has_id i) (rows s)) as [b|] eqn:E; [by exists b|].
  rewrite find_absent in E. by destruct (E a Hin).
Qed.

(** ** The handlers, run on an arbitrary world *)

Lemma get_accounts_run account_id w :
  get_accounts account_id w =
    let w' := logged w [LoggerInfo ("Request to read an Account with id: "
                                      ++ pretty account_id);
                        DbFind account_id] in
    match List.find (Account_ops.has_id account_id) (rows (db w)) with
    | None => (inl (HTTPException 404 (not_found_message account_id)), w')
    | Some a => (inr (mk_response 200 (JsonObject (Account_ops.serialize a)) []), w')
    end.
Proof.
  unfold get_accounts, Account_ops.find, logged. unfold_M. simpl.
  rewrite <- app_assoc. simpl.
  by destruct (List.find _ _).
Qed.

(** C4: GET /accounts/{id} answers 200 with the serialization of the
    account that has this identity when the store holds one, and
    otherwise 404 with the message
    "Account with id [<id>] could not be found.", which spells out the
    requested id in decimal. *)
Theorem get_accounts_found_or_404 (account_id : Z) (w : World) :
  wf_store (db w) →
  (∀ a, a ∈ rows (db w) → models.id a = Some account_id →
     outcome (get_accounts account_id) w
       = inr (mk_response status.HTTP_200_OK
                (JsonObject (Account_ops.serialize a)) []))
  ∧ (¬ exists_in (db w) account_id →
       outcome (get_accounts account_id) w
         = inl (HTTPException status.HTTP_404_NOT_FOUND
                  ("Account with id [" ++ pretty account_id
                     ++ "] could not be found."))
       ∧ status_of (outcome (get_accounts account_id) w)
         = status.HTTP_404_NOT_FOUND).
Proof.
  intros (Hnd & _ & _). unfold outcome. rewrite get_accounts_run. simpl. split.
  - intros a Hin Hid. by rewrite (find_unique _ _ _ Hnd Hin Hid).
  - intros Hno.
    destruct (List.find _ _) as [b|] eqn:E; [|done].
    apply find_has_id in E. destruct Hno. by exists b.
Qed.

Lemma create_accounts_run_ok req w n e :
  headers req !! "Content-Type" = Some "application/json" →
  json req !! "name" = Some (VStr n) →
  json req !! "email" = Some (VStr e) →
  create_accounts req w =
    let i := next_id (db w) in
    let a := created (json req) n e i (today w) in
    (inr (mk_response 201 (JsonObject (Account_ops.serialize a))
            [("Location", get_accounts_url (url_root req) i)]),
     mk_World (mk_Store (rows (db w) ++ [a]) (i + 1))
       (trace w ++ [LoggerInfo "Request to create an Account"; GetJson;
                    Deserialize; DbCreate i])
       (today w) (non_json w)).
Proof.
  intros Hct Hn He. unfold create_accounts.
  unfold mbind at 1, M_bind, bind at 1. unfold logger_info at 1, emit at 1.
  unfold mbind at 1, bind at 1.
  rewrite check_content_type_accepts by done.
  unfold get_json. rewrite (is_json_exact req Hct).
  unfold Account_ops.deserialize, Account_ops.create, Account_ops.required,
    url_for_get_accounts.
  unfold_M. simpl. rewrite Hn. simpl. rewrite He. simpl.
  rewrite <- !app_assoc. reflexivity.
Qed.

Lemma create_accounts_run_bad req w :
  headers req !! "Content-Type" = Some "application/json" →
  (∀ n e, ¬ (json req !! "name" = Some (VStr n) ∧ json req !! "email" = Some (VStr e))) →
  ∃ key,
    create_accounts req w =
      (inl (DataValidationError key),
       logged w [LoggerInfo "Request to create an Account"; GetJson; Deserialize]).
Proof.
  intros Hct Hbad. unfold create_accounts.
  unfold mbind at 1, M_bind, bind at 1. unfold logger_info at 1, emit at 1.
  unfold mbind at 1, bind at 1.
  rewrite check_content_type_accepts by done.
  unfold get_json. rewrite (is_json_exact req Hct).
  unfold Account_ops.deserialize, Account_ops.required, logged.
  unfold_M. simpl. rewrite <- !app_assoc. simpl.
  destruct (json req !! "name") as [[| | |n]|] eqn:Hn;
    try (by exists "name").
  destruct (json req !! "email") as [[| | |e]|] eqn:He;
    try (by exists "email").
  by destruct (Hbad n e).
Qed.

(** C3: a POST /accounts with Content-Type application/json whose body
    lacks a required field (name or email) is answered 400, and the
    database is as it was: nothing is persisted. *)
Theorem create_accounts_missing_field (req : request) (w : World) :
  headers req !! "Content-Type" = Some "application/json" →
  json req !! "name" = None ∨ json req !! "email" = None →
  status_of (outcome (create_accounts req) w) = status.HTTP_400_BAD_REQUEST
  ∧ db (after (create_accounts req) w) = db w
  ∧ (∀ i, DbCreate i ∉ emitted (create_accounts req) w).
Proof.
  intros Hct Hmiss.
  destruct (create_accounts_run_bad req w Hct) as [key Hrun].
  { intros n e [Hn He]. destruct Hmiss; congruence. }
  unfold emitted, outcome, after. rewrite Hrun. simpl.
  rewrite drop_app_length.
  repeat split.
  intros i H. repeat (apply elem_of_cons in H as [H|H]; [discriminate|]).
  by apply elem_of_nil in H.
Qed.

Lemma create_accounts_missing_field_witness :
  status_of (outcome (create_accounts (sample.post sample.json_headers sample.only_name))
               sample.fresh) = 400
  ∧ db (after (create_accounts (sample.post sample.json_headers sample.only_name))
          sample.fresh) = models.empty.
Proof.
  destruct (create_accounts_missing_field
              (sample.post sample.json_headers sample.only_name) sample.fresh)
    as (Hst & Hdb & _).
  - vm_compute. reflexivity.
  - right. vm_compute. reflexivity.
  - split; [exact Hst | exact Hdb].
Defined.

(** ** URLs built by [url_for] are matched back by the URL map *)

Lemma is_nat_pretty_N_char (d : N) :
  (d < 10)%N → Ascii.is_nat (pretty_N_char d) = Some (N.to_nat d).
Proof.
  intros Hd.
  assert (d ∈ [0; 1; 2; 3; 4; 5; 6; 7; 8; 9]%N) as Hin.
  { destruct d as [|p]; [set_solver|].
    do 9 (destruct p as [p|p|]; try lia; try set_solver). }
  repeat (apply elem_of_cons in Hin as [->|Hin]; [reflexivity|]).
  by apply elem_of_nil in Hin.
Qed.

Lemma digits_go_pretty_N_go (x : N) :
  ∀ s, (0 < x)%N → digits_go 0 (pretty_N_go x s) = digits_go x s.
Proof.
  induction (N.lt_wf_0 x) as [x _ IH]. intros s Hx.
  rewrite pretty_N_go_step by done.
  assert (x `mod` 10 < 10)%N as Hmod by (apply N.mod_lt; lia).
  assert (x = 10 * (x `div` 10) + x `mod` 10)%N as Hdiv by (apply N.div_mod; lia).
  destruct (decide (x `div` 10 = 0)%N) as [Hz|Hnz].
  - rewrite Hz, pretty_N_go_0. simpl.
    rewrite is_nat_pretty_N_char by done. rewrite N2Nat.id.
    f_equal. lia.
  - rewrite IH; [| apply N.div_lt; lia | lia]. simpl.
    rewrite is_nat_pretty_N_char by done. rewrite N2Nat.id.
    f_equal. lia.
Qed.

Lemma pretty_N_go_nonempty (x : N) :
  ∀ s, s ≠ "" → pretty_N_go x s ≠ "".
Proof.
  induction (N.lt_wf_0 x) as [x _ IH]. intros s Hs.
  destruct (decide (x = 0)%N) as [->|Hx]; [by rewrite pretty_N_go_0|].
  rewrite pretty_N_go_step by lia.
  apply IH; [apply N.div_lt; lia | done].
Qed.

Lemma int_converter_pretty (i : Z) :
  (0 ≤ i)%Z → int_converter (pretty i) = Some i.
Proof.
  intros Hi. destruct i as [|p|p]; [reflexivity| |lia].
  change (pretty (Z.pos p)) with (pretty (N.pos p)).
  unfold pretty, pretty_N. destruct (decide (N.pos p = 0%N)) as [|_]; [done|].
  unfold int_converter.
  assert (pretty_N_go (N.pos p) "" ≠ "") as Hne.
  { rewrite pretty_N_go_step by lia. by apply pretty_N_go_nonempty. }
  destruct (pretty_N_go (N.pos p) "") as [|c s] eqn:E; [done|].
  rewrite <- E, digits_go_pretty_N_go by lia. reflexivity.
Qed.

Lemma strip_prefix_app (p r : string) : strip_prefix p (p ++ r) = Some r.
Proof.
  induction p as [|a p IH]; [reflexivity|].
  change (String a p ++ r) with (String a (p ++ r)). simpl.
  by rewrite Ascii.eqb_refl.
Qed.

(** The rule [/accounts/<int:account_id>] matches the path that
    [url_for] builds for a non-negative identity. *)
Lemma url_map_get_accounts (account_id : Z) :
  (0 ≤ account_id)%Z →
  url_map "GET" ("/accounts/" ++ pretty account_id)
    = Some (view_get_accounts account_id).
Proof.
  intros Hi. unfold url_map.
  rewrite strip_prefix_app, int_converter_pretty by done.
  reflexivity.
Qed.

(** ** Creating an account *)

Lemma persisted_below_spec n a :
  persisted_below n a ↔ ∃ i, models.id a = Some i ∧ (i < n)%Z.
Proof.
  unfold persisted_below. destruct (models.id a) as [i|].
  - rewrite bool_decide_spec. split; [by exists i | by intros (? & [= <-] & ?)].
  - split; [done | by intros (? & ? & ?)].
Qed.

(** The identity the store assigns next is not yet in use. *)
Lemma wf_store_next_id_fresh s : wf_store s → ¬ exists_in s (next_id s).
Proof.
  intros (_ & Hall & _) (a & Hin & Hid).
  rewrite Forall_forall in Hall. apply Hall in Hin.
  apply persisted_below_spec in Hin as (i & Hi & Hlt).
  rewrite Hid in Hi. injection Hi as <-. lia.
Qed.

Lemma wf_store_append s a :
  wf_store s → models.id a = Some (next_id s) →
  wf_store (mk_Store (rows s ++ [a]) (next_id s + 1)).
Proof.
  intros Hwf Hid. pose proof (wf_store_next_id_fresh s Hwf) as Hfresh.
  destruct Hwf as (Hnd & Hall & Hpos). repeat split; simpl.
  - rewrite map_app. apply NoDup_app. repeat split; [done| |apply NoDup_singleton].
    intros o Ho Ho'. apply list_elem_of_singleton in Ho'. subst o.
    apply list_elem_of_fmap in Ho as (b & Hb & Hin).
    apply Hfresh. exists b. by rewrite <- Hb, Hid.
  - apply Forall_app. split.
    + eapply Forall_impl; [exact Hall|]. intros b Hb.
      apply persisted_below_spec in Hb as (i & Hi & Hlt).
      apply persisted_below_spec. exists i. split; [done | lia].
    + apply Forall_singleton, persisted_below_spec.
      exists (next_id s). split; [done | lia].
  - lia.
Qed.

Lemma find_appended i l a :
  (∀ b, b ∈ l → models.id b ≠ Some i) → models.id a = Some i →
  List.find (Account_ops.has_id i) (l ++ [a]) = Some a.
Proof.
  intros Hl Hid. induction l as [|b l IH]; simpl.
  - apply has_id_true in Hid. by rewrite Hid.
  - destruct (Account_ops.has_id i b) eqn:E.
    + apply has_id_true in E. destruct (Hl b); [left | done].
    + apply IH. intros c Hc. apply Hl. by right.
Qed.

(** C1: a POST /accounts with Content-Type application/json whose body
    holds the required fields name and email is answered 201; the body
    of the answer is the serialization of the new account, which carries
    the submitted name and email and an identity no stored account had;
    the Location header is the URL of the read rule for that identity;
    and a GET addressed to that URL on the same server is routed to the
    read handler and answers 200 with the same serialized data. *)
Theorem create_accounts_created (req : request) (w : World) (n e : string) :
  wf_store (db w) →
  headers req !! "Content-Type" = Some "application/json" →
  json req !! "name" = Some (VStr n) →
  json req !! "email" = Some (VStr e) →
  ∃ (account_id : Z) (account : Account) (r : response),
    outcome (create_accounts req) w = inr r
    ∧ status_code r = status.HTTP_201_CREATED
    ∧ data r = JsonObject (Account_ops.serialize account)
    ∧ models.id account = Some account_id
    ∧ models.name account = Some n
    ∧ models.email account = Some e
    ∧ ¬ exists_in (db w) account_id
    ∧ rows (db (after (create_accounts req) w)) = (rows (db w) ++ [account])%list
    ∧ headers_out r = [("Location", url_root req ++ "/accounts/" ++ pretty account_id)]
    ∧ ∀ req' : request,
        method req' = "GET" →
        url_root req' = url_root req →
        Some (url req') = snd <$> head (headers_out r) →
        dispatch req' = Some (get_accounts account_id)
        ∧ outcome (get_accounts account_id) (after (create_accounts req) w)
          = inr (mk_response status.HTTP_200_OK (data r) []).
Proof.
  intros Hwf Hct Hn He.
  pose proof (wf_store_next_id_fresh _ Hwf) as Hfresh.
  exists (next_id (db w)), (created (json req) n e (next_id (db w)) (today w)).
  eexists. unfold outcome, after.
  rewrite (create_accounts_run_ok req w n e Hct Hn He). simpl.
  split; [reflexivity|]. do 8 (split; [done|]).
  intros req' Hverb Hroot Hurl. split.
  - unfold dispatch. injection Hurl as Hurl. unfold url, get_accounts_url in Hurl.
    rewrite Hroot in Hurl. apply (inj (String.app (url_root req))) in Hurl.
    rewrite Hverb, Hurl, url_map_get_accounts; [done|].
    by destruct Hwf as (_ & _ & ?).
  - rewrite get_accounts_run. simpl.
    rewrite find_appended; [done | | done].
    intros b Hb Hid. apply Hfresh. by exists b.
Qed.

Lemma create_accounts_created_witness :
  ∃ r, outcome (create_accounts (sample.post sample.json_headers sample.ann))
         sample.fresh = inr r
       ∧ status_code r = 201
       ∧ headers_out r = [("Location", "http://localhost/accounts/1")]
       ∧ outcome (get_accounts 1) sample.with_ann
         = inr (mk_response 200 (data r) []).
Proof.
  destruct (create_accounts_created
              (sample.post sample.json_headers sample.ann) sample.fresh
              "Ann" "ann@example.com")
    as (i & a & r & Hr & Hst & _ & _ & _ & _ & _ & _ & Hloc & Hget).
  - apply (bool_decide_unpack (wf_store _)). vm_compute. exact I.
  - vm_compute. reflexivity.
  - vm_compute. reflexivity.
  - vm_compute. reflexivity.
  - exists r. split; [exact Hr|]. split; [exact Hst|].
    assert (i = 1) as ->.
    { unfold outcome in Hr. vm_compute in Hr. injection Hr as <-.
      simpl in Hloc. injection Hloc as Hloc.
      change (pretty 1 = pretty i) in Hloc.
      symmetry. by apply (inj pretty). }
    split; [exact Hloc|].
    apply (Hget (sample.get "/accounts/1")); [reflexivity | reflexivity |].
    rewrite Hloc. reflexivity.
Defined.

(** ** Reading an account *)

Lemma string_length_app (s t : string) :
  String.length (s ++ t) = (String.length s + String.length t)%nat.
Proof.
  induction s as [|a s IH]; [done|].
  change (String a s ++ t) with (String a (s ++ t)). simpl. by rewrite IH.
Qed.

Lemma string_app_inj_r (s1 s2 t : string) : s1 ++ t = s2 ++ t → s1 = s2.
Proof.
  revert s2. induction s1 as [|a s1 IH]; intros [|b s2] H; [done| | |].
  - apply (f_equal String.length) in H.
    rewrite !string_length_app in H. simpl in H. lia.
  - apply (f_equal String.length) in H.
    rewrite !string_length_app in H. simpl in H. lia.
  - change (String a (s1 ++ t) = String b (s2 ++ t)) in H.
    injection H as -> H. f_equal. by apply IH.
Qed.

(** The message tells which identity was asked for: two identities never
    share a message. *)
Lemma not_found_message_inj (i j : Z) :
  not_found_message i = not_found_message j → i = j.
Proof.
  unfold not_found_message. intros H.
  apply (inj (String.app "Account with id [")) in H.
  apply string_app_inj_r in H. by apply (inj pretty).
Qed.

Lemma get_accounts_found_or_404_witness :
  outcome (get_accounts 1) sample.with_ann
    = inr (mk_response 200 (JsonObject (Account_ops.serialize sample.ann_account)) [])
  ∧ status_of (outcome (get_accounts 0) sample.with_ann) = 404.
Proof.
  assert (wf_store (db sample.with_ann)) as Hwf.
  { apply (bool_decide_unpack (wf_store _)). vm_compute. exact I. }
  split.
  - destruct (get_accounts_found_or_404 1 sample.with_ann Hwf) as [Hfound _].
    apply Hfound; [|reflexivity]. vm_compute. left.
  - destruct (get_accounts_found_or_404 0 sample.with_ann Hwf) as [_ Hnone].
    apply Hnone. intros (a & Hin & Hid). vm_compute in Hin.
    apply list_elem_of_singleton in Hin. subst a. discriminate.
Defined.

(** ** Deserializing a body *)

Lemma has_required_true d :
  has_required d = true ↔
  ∃ n e, d !! "name" = Some (VStr n) ∧ d !! "email" = Some (VStr e).
Proof.
  unfold has_required. split.
  - destruct (d !! "name") as [[| | |n]|]; try done.
    destruct (d !! "email") as [[| | |e]|]; try done. by exists n, e.
  - by intros (n & e & -> & ->).
Qed.

Lemma deserialize_run_ok self (d : mapping) w n e :
  d !! "name" = Some (VStr n) →
  d !! "email" = Some (VStr e) →
  Account_ops.deserialize self (Some d) w
    = (inr (populated (models.id self) d n e (today w)), logged w [Deserialize]).
Proof.
  intros Hn He. unfold Account_ops.deserialize, Account_ops.required.
  unfold_M. simpl. rewrite Hn. simpl. by rewrite He.
Qed.

Lemma deserialize_run_bad self (d : mapping) w :
  has_required d = false →
  ∃ key, Account_ops.deserialize self (Some d) w
           = (inl (DataValidationError key), logged w [Deserialize]).
Proof.
  intros Hbad. unfold Account_ops.deserialize, Account_ops.required.
  unfold has_required in Hbad. unfold_M. simpl.
  destruct (d !! "name") as [[| | |n]|]; try (by exists "name").
  destruct (d !! "email") as [[| | |e]|]; by exists "email".
Qed.

(** ** The other handlers, run on an arbitrary world *)

Lemma list_accounts_run w :
  list_accounts w =
    (inr (mk_response 200 (JsonArray (map Account_ops.serialize (rows (db w)))) []),
     logged w [LoggerInfo "Request to list all Accounts"; DbAll]).
Proof.
  unfold list_accounts, Account_ops.all, logged. unfold_M. simpl.
  by rewrite <- app_assoc.
Qed.

Lemma deserialize_run_None self w :
  Account_ops.deserialize self None w
  = (inl (DataValidationError "name"), logged w [Deserialize]).
Proof. unfold Account_ops.deserialize. by unfold_M. Qed.

Lemma update_accounts_run account_id req w :
  update_accounts account_id req w =
    let info := LoggerInfo ("Request to update an Account with id: "
                              ++ pretty account_id) in
    match List.find (Account_ops.has_id account_id) (rows (db w)) with
    | None =>
        (inl (HTTPException 404 (not_found_message account_id)),
         logged w [info; DbFind account_id])
    | Some a =>
        match get_json req (logged w [info; DbFind account_id]) with
        | (inl e, w') => (inl e, w')
        | (inr d, w') =>
            match Account_ops.deserialize a d w' with
            | (inl e, w'') => (inl e, w'')
            | (inr a', w'') =>
                (inr (mk_response 200 (JsonObject (Account_ops.serialize a')) []),
                 mk_World
                   (mk_Store
                      (map (λ r, if bool_decide (models.id r = models.id a')
                                 then a' else r) (rows (db w'')))
                      (next_id (db w'')))
                   (trace w'' ++ [DbUpdate (models.id a')]) (today w'')
                   (non_json w''))
            end
        end
    end.
Proof.
  unfold update_accounts, Account_ops.find, Account_ops.update, logged.
  unfold mbind at 1, M_bind, bind at 1. unfold logger_info, emit at 1.
  unfold mbind at 1, bind at 1. unfold mbind at 1, bind at 1.
  unfold emit at 1. unfold mbind at 1, bind at 1. unfold get_db at 1, mret, M_ret, ret at 1.
  cbn [db trace today non_json]. rewrite <- app_assoc. cbn [app].
  destruct (List.find _ _) as [a|]; [|done].
  unfold mbind at 1, bind at 1.
  destruct (get_json req _) as [[e|d] w']; [done|].
  unfold mbind at 1, bind at 1.
  destruct (Account_ops.deserialize a d w') as [[e|a'] w'']; [done|].
  by unfold_M.
Qed.

Lemma delete_account_run account_id w :
  delete_account account_id w =
    let info := LoggerInfo ("Request to delete Account with id: "
                              ++ pretty account_id) in
    match List.find (Account_ops.has_id account_id) (rows (db w)) with
    | None =>
        (inl (HTTPException 404 (not_found_message account_id)),
         logged w [info; DbFind account_id])
    | Some a =>
        (inr (mk_response 204 (Text "") []),
         mk_World
           (mk_Store
              (List.filter (λ r, negb (bool_decide (models.id r = models.id a)))
                 (rows (db w)))
              (next_id (db w)))
           (trace w ++ [info; DbFind account_id; DbDelete (models.id a)])
           (today w) (non_json w))
    end.
Proof.
  unfold delete_account, Account_ops.find, Account_ops.delete, logged.
  unfold_M. simpl. rewrite <- !app_assoc. simpl.
  destruct (List.find _ _) as [a|]; [|done].
  cbn [db trace today]. by rewrite <- ?app_assoc.
Qed.

(** ** The store invariant is kept by every view *)

Lemma exists_in_ids s i : exists_in s i ↔ Some i ∈ map models.id (rows s).
Proof.
  unfold exists_in. rewrite list_elem_of_fmap. split.
  - intros (a & Hin & Hid). by exists a.
  - intros (a & Hid & Hin). by exists a.
Qed.

Lemma wf_store_ids s :
  wf_store s ↔
  NoDup (map models.id (rows s))
  ∧ (∀ o, o ∈ map models.id (rows s) → ∃ i, o = Some i ∧ (i < next_id s)%Z)
  ∧ (0 ≤ next_id s)%Z.
Proof.
  unfold wf_store. rewrite Forall_forall.
  split; intros (Hnd & Hall & Hpos); repeat split; try done.
  - intros o Ho. apply list_elem_of_fmap in Ho as (a & -> & Hin).
    by apply persisted_below_spec, Hall.
  - intros a Hin. apply persisted_below_spec, Hall. by apply list_elem_of_fmap_2.
Qed.

Lemma ids_filter o (l : list Account) :
  map models.id (List.filter (λ r, negb (bool_decide (models.id r = o))) l)
  = List.filter (λ x, negb (bool_decide (x = o))) (map models.id l).
Proof.
  induction l as [|a l IH]; [done|]. simpl.
  destruct (bool_decide (models.id a = o)); simpl; by rewrite IH.
Qed.

Lemma elem_of_ids_filter o x (l : list (option Z)) :
  x ∈ List.filter (λ x, negb (bool_decide (x = o))) l ↔ x ∈ l ∧ x ≠ o.
Proof.
  rewrite !list_elem_of_In, filter_In, negb_true_iff, bool_decide_eq_false.
  done.
Qed.

Lemma NoDup_ids_filter o (l : list (option Z)) :
  NoDup l → NoDup (List.filter (λ x, negb (bool_decide (x = o))) l).
Proof.
  induction 1 as [|x l Hx Hnd IH]; simpl; [constructor|].
  destruct (bool_decide (x = o)); simpl; [done|].
  constructor; [|done]. rewrite elem_of_ids_filter. tauto.
Qed.

Lemma store_step_wf s s' : wf_store s → store_step s s' → wf_store s'.
Proof.
  intros Hwf Hstep. destruct Hstep as [|a Hid|l Hids|o]; [done| | |].
  - by apply wf_store_append.
  - apply wf_store_ids in Hwf. apply wf_store_ids. simpl. by rewrite Hids.
  - apply wf_store_ids in Hwf as (Hnd & Hall & Hpos).
    apply wf_store_ids. simpl. rewrite ids_filter. repeat split; [| |done].
    + by apply NoDup_ids_filter.
    + intros x Hx. apply elem_of_ids_filter in Hx as [Hx _]. by apply Hall.
Qed.

(** An identity the store has handed out and that no record carries any
    more stays that way. *)
Lemma store_step_gone s s' i :
  store_step s s' →
  (i < next_id s)%Z ∧ ¬ exists_in s i →
  (i < next_id s')%Z ∧ ¬ exists_in s' i.
Proof.
  intros Hstep [Hlt Hno]. rewrite exists_in_ids in Hno. rewrite exists_in_ids.
  destruct Hstep as [|a Hid|l Hids|o]; simpl; [done| | |].
  - split; [lia|]. rewrite map_app. intros Hin.
    apply elem_of_app in Hin as [Hin|Hin]; [done|].
    simpl in Hin. apply list_elem_of_singleton in Hin.
    rewrite Hid in Hin. injection Hin as ->. lia.
  - by rewrite Hids.
  - split; [done|]. rewrite ids_filter. intros Hin.
    by apply elem_of_ids_filter in Hin as [Hin _].
Qed.

Lemma ids_replace (a' : Account) (l : list Account) :
  map models.id
    (map (λ r, if bool_decide (models.id r = models.id a') then a' else r) l)
  = map models.id l.
Proof.
  induction l as [|b l IH]; [done|]. simpl. rewrite IH. f_equal.
  by case_bool_decide.
Qed.

Lemma deserialize_db self d w :
  db (snd (Account_ops.deserialize self d w)) = db w.
Proof.
  destruct d as [d|]; [|by rewrite deserialize_run_None].
  destruct (has_required d) eqn:E.
  - apply has_required_true in E as (n & e & Hn & He).
    by rewrite (deserialize_run_ok _ _ _ _ _ Hn He).
  - destruct (deserialize_run_bad self d w E) as [key ->]. done.
Qed.

(** Every view function moves the store by one step at most. *)
Lemma call_store_step v req w : store_step (db w) (db (after (call v req) w)).
Proof.
  unfold after. destruct v as [| | | |i|i|i]; cbn [call].
  - apply step_none.
  - apply step_none.
  - destruct (decide (headers req !! "Content-Type" = Some "application/json"))
      as [Hct|Hct].
    + destruct (has_required (json req)) eqn:E.
      * apply has_required_true in E as (n & e & Hn & He).
        rewrite (create_accounts_run_ok req w n e Hct Hn He). simpl.
        by apply step_add.
      * destruct (create_accounts_run_bad req w Hct) as [key ->].
        { intros n e [Hn He].
          assert (has_required (json req) = true); [|congruence].
          apply has_required_true. by exists n, e. }
        apply step_none.
    + rewrite (create_accounts_rejected req w Hct). apply step_none.
  - rewrite list_accounts_run. apply step_none.
  - rewrite get_accounts_run. simpl.
    destruct (List.find _ _); apply step_none.
  - rewrite update_accounts_run. cbn zeta.
    destruct (List.find _ _) as [a|]; [|apply step_none].
    pose proof (get_json_db req
                  (logged w [LoggerInfo ("Request to update an Account with id: "
                                           ++ pretty i); DbFind i])) as Hdb.
    destruct (get_json req _) as [[e|d] w']; cbn [snd] in *.
    { rewrite Hdb. apply step_none. }
    pose proof (deserialize_db a d w') as Hdb'.
    destruct (Account_ops.deserialize a d w') as [[e|a'] w'']; cbn [snd db] in *.
    + rewrite Hdb', Hdb. apply step_none.
    + rewrite Hdb', Hdb. apply step_replace. apply ids_replace.
  - rewrite delete_account_run. simpl.
    destruct (List.find _ _) as [a|]; [|apply step_none].
    apply step_drop.
Qed.

Lemma serve_store_step w req : store_step (db w) (db (serve w req)).
Proof.
  unfold serve, dispatch.
  destruct (url_map (method req) (path req)) as [v|]; simpl.
  - apply call_store_step.
  - apply step_none.
Qed.

(** The invariant holds in every state the server reaches. *)
Lemma serve_all_wf reqs w : wf_store (db w) → wf_store (db (serve_all reqs w)).
Proof.
  unfold serve_all. revert w.
  induction reqs as [|req reqs IH]; intros w Hwf; [done|]. simpl.
  apply IH. eapply store_step_wf; [done | apply serve_store_step].
Qed.

Lemma wf_store_empty : wf_store models.empty.
Proof. repeat split; [constructor | constructor | done]. Qed.

(** Started on the empty store, the server only reaches states in which
    the invariant holds. *)
Lemma reachable_wf reqs t policy :
  wf_store (db (serve_all reqs (mk_World models.empty [] t policy))).
Proof. apply serve_all_wf, wf_store_empty. Qed.

Lemma serve_all_gone reqs w i :
  (i < next_id (db w))%Z ∧ ¬ exists_in (db w) i →
  (i < next_id (db (serve_all reqs w)))%Z ∧ ¬ exists_in (db (serve_all reqs w)) i.
Proof.
  unfold serve_all. revert w.
  induction reqs as [|req reqs IH]; intros w H; [done|]. simpl.
  apply IH. eapply store_step_gone; [apply serve_store_step | done].
Qed.

(** ** Updating an account *)

Lemma find_replaced i l a a' :
  List.find (Account_ops.has_id i) l = Some a → models.id a' = Some i →
  List.find (Account_ops.has_id i) (replaced a' l) = Some a'.
Proof.
  intros Hfind Hid. induction l as [|b l IH]; [done|]. simpl in *.
  destruct (Account_ops.has_id i b) eqn:E.
  - apply has_id_true in E. rewrite bool_decide_eq_true_2 by congruence.
    apply has_id_true in Hid. by rewrite Hid.
  - rewrite bool_decide_eq_false_2.
    + rewrite E. by apply IH.
    + rewrite Hid. intros Hb. apply has_id_true in Hb. congruence.
Qed.

Lemma get_accounts_absent account_id w :
  ¬ exists_in (db w) account_id →
  outcome (get_accounts account_id) w
    = inl (HTTPException 404 (not_found_message account_id)).
Proof.
  intros Hno. unfold outcome. rewrite get_accounts_run. simpl.
  destruct (List.find _ _) as [b|] eqn:E; [|done].
  apply find_has_id in E. destruct Hno. by exists b.
Qed.

Lemma update_accounts_run_ok account_id req w a n e :
  is_json req = true →
  List.find (Account_ops.has_id account_id) (rows (db w)) = Some a →
  json req !! "name" = Some (VStr n) →
  json req !! "email" = Some (VStr e) →
  let a' := populated (Some account_id) (json req) n e (today w) in
  update_accounts account_id req w =
    (inr (mk_response 200 (JsonObject (Account_ops.serialize a')) []),
     mk_World (mk_Store (replaced a' (rows (db w))) (next_id (db w)))
       (trace w ++ [LoggerInfo ("Request to update an Account with id: "
                                  ++ pretty account_id);
                    DbFind account_id; GetJson; Deserialize;
                    DbUpdate (Some account_id)])
       (today w) (non_json w)).
Proof.
  intros Hjson Hfind Hn He. rewrite update_accounts_run. cbn zeta. rewrite Hfind.
  rewrite (get_json_run_json _ _ Hjson), (deserialize_run_ok _ _ _ _ _ Hn He).
  apply find_has_id in Hfind as [_ ->]. unfold logged. simpl.
  by rewrite <- !app_assoc.
Qed.

Lemma update_accounts_run_bad account_id req w a :
  is_json req = true →
  List.find (Account_ops.has_id account_id) (rows (db w)) = Some a →
  has_required (json req) = false →
  ∃ key,
    update_accounts account_id req w =
      (inl (DataValidationError key),
       logged w [LoggerInfo ("Request to update an Account with id: "
                               ++ pretty account_id);
                 DbFind account_id; GetJson; Deserialize]).
Proof.
  intros Hjson Hfind Hbad. rewrite update_accounts_run. cbn zeta. rewrite Hfind.
  rewrite (get_json_run_json _ _ Hjson).
  destruct (deserialize_run_bad a (json req)
              (logged
                 (logged w [LoggerInfo ("Request to update an Account with id: "
                                          ++ pretty account_id);
                            DbFind account_id]) [GetJson]) Hbad) as [key ->].
  exists key. unfold logged. simpl. by rewrite <- !app_assoc.
Qed.

(** A PUT whose declared type is not JSON, on an existing identity: the
    framework's [get_json] decides, by its policy. *)
Lemma update_accounts_run_not_json account_id req w a :
  is_json req = false →
  List.find (Account_ops.has_id account_id) (rows (db w)) = Some a →
  update_accounts account_id req w =
    let evs := [LoggerInfo ("Request to update an Account with id: "
                              ++ pretty account_id);
                DbFind account_id; GetJson] in
    match non_json w with
    | returns_None =>
        (inl (DataValidationError "name"), logged w (evs ++ [Deserialize]))
    | raises_400 => (inl (HTTPException 400 not_json_description), logged w evs)
    | raises_415 => (inl (HTTPException 415 not_json_description), logged w evs)
    end.
Proof.
  intros Hjson Hfind. rewrite update_accounts_run. cbn zeta. rewrite Hfind.
  rewrite (get_json_run_not_json _ _ Hjson). cbn [logged non_json].
  destruct (non_json w); [rewrite deserialize_run_None|..];
    unfold logged; simpl; by rewrite <- ?app_assoc.
Qed.

Lemma update_accounts_run_404 account_id req w :
  ¬ exists_in (db w) account_id →
  update_accounts account_id req w =
    (inl (HTTPException 404 (not_found_message account_id)),
     logged w [LoggerInfo ("Request to update an Account with id: "
                             ++ pretty account_id);
               DbFind account_id]).
Proof.
  intros Hno. rewrite update_accounts_run. cbn zeta.
  destruct (List.find _ _) as [b|] eqn:E; [|done].
  apply find_has_id in E. destruct Hno. by exists b.
Qed.

(** C5, as the code has it: a PUT /accounts/{id} on an existing identity
    whose declared Content-Type is JSON (so that [request.get_json()]
    reads the body) and whose body holds the required fields name and
    email overwrites the stored attributes with the values of the body,
    answers 200 with the serialization of the updated account, and a
    following GET on the same identity returns that serialization; a
    PUT on an identity that is not in the store answers 404 and leaves
    the store as it was. *)
Theorem update_accounts_updates (account_id : Z) (req : request) (w : World) :
  (exists_in (db w) account_id →
   is_json req = true →
   ∀ n e,
     json req !! "name" = Some (VStr n) →
     json req !! "email" = Some (VStr e) →
     ∃ a',
       outcome (update_accounts account_id req) w
         = inr (mk_response status.HTTP_200_OK
                  (JsonObject (Account_ops.serialize a')) [])
       ∧ models.id a' = Some account_id
       ∧ models.name a' = Some n
       ∧ models.email a' = Some e
       ∧ models.address a' = Account_ops.optional (json req) "address"
       ∧ models.phone_number a' = Account_ops.optional (json req) "phone_number"
       ∧ rows (db (after (update_accounts account_id req) w))
         = replaced a' (rows (db w))
       ∧ a' ∈ rows (db (after (update_accounts account_id req) w))
       ∧ outcome (get_accounts account_id) (after (update_accounts account_id req) w)
         = inr (mk_response status.HTTP_200_OK
                  (JsonObject (Account_ops.serialize a')) []))
  ∧ (¬ exists_in (db w) account_id →
     status_of (outcome (update_accounts account_id req) w)
       = status.HTTP_404_NOT_FOUND
     ∧ db (after (update_accounts account_id req) w) = db w).
Proof.
  split.
  - intros Hex Hjson n e Hn He.
    destruct (find_exists _ _ Hex) as [a Hfind].
    exists (populated (Some account_id) (json req) n e (today w)).
    unfold outcome, after.
    rewrite (update_accounts_run_ok _ _ _ _ _ _ Hjson Hfind Hn He). simpl.
    assert (List.find (Account_ops.has_id account_id)
              (replaced (populated (Some account_id) (json req) n e (today w))
                 (rows (db w)))
            = Some (populated (Some account_id) (json req) n e (today w)))
      as Hfind' by (by apply (find_replaced _ _ a)).
    repeat split.
    + by apply find_has_id in Hfind' as [? _].
    + rewrite get_accounts_run. simpl. by rewrite Hfind'.
  - intros Hno. unfold outcome, after.
    by rewrite (update_accounts_run_404 _ _ _ Hno).
Qed.

Lemma update_accounts_updates_witness :
  (∃ a', outcome (update_accounts 1 (sample.put "/accounts/1" sample.bob))
           sample.with_ann
         = inr (mk_response 200 (JsonObject (Account_ops.serialize a')) [])
         ∧ models.name a' = Some "Bob"
         ∧ outcome (get_accounts 1)
             (after (update_accounts 1 (sample.put "/accounts/1" sample.bob))
                sample.with_ann)
           = inr (mk_response 200 (JsonObject (Account_ops.serialize a')) []))
  ∧ status_of (outcome (update_accounts 99999 (sample.put "/accounts/99999" sample.bob))
                 sample.with_ann) = 404.
Proof.
  split.
  - destruct (update_accounts_updates 1 (sample.put "/accounts/1" sample.bob)
                sample.with_ann) as [Hok _].
    destruct (Hok (ex_intro _ sample.ann_account (conj (list_elem_of_here _ _) eq_refl))
                eq_refl "Bob" "bob@example.com" eq_refl eq_refl)
      as (a' & Hout & _ & Hname & _ & _ & _ & _ & _ & Hget).
    exists a'. split; [exact Hout|]. split; [exact Hname | exact Hget].
  - destruct (update_accounts_updates 99999
                (sample.put "/accounts/99999" sample.bob) sample.with_ann)
      as [_ Hno].
    apply Hno. intros (a & Hin & Hid).
    apply list_elem_of_singleton in Hin. subst a. discriminate.
Defined.

(** C5 as stated fails: on an existing identity, a PUT whose body lacks
    the required email is answered 400, not 200, and changes nothing. *)
Lemma update_accounts_always_200_counterexample :
  exists_in (db sample.with_ann) 1
  ∧ status_of (outcome (update_accounts 1 (sample.put "/accounts/1" sample.only_name))
                 sample.with_ann) = 400
  ∧ status_of (outcome (update_accounts 1 (sample.put "/accounts/1" sample.only_name))
                 sample.with_ann) ≠ status.HTTP_200_OK
  ∧ db (after (update_accounts 1 (sample.put "/accounts/1" sample.only_name))
          sample.with_ann) = db sample.with_ann.
Proof.
  split; [|split; [|split]].
  - exists sample.ann_account. split; [left | reflexivity].
  - vm_compute. reflexivity.
  - vm_compute. discriminate.
  - vm_compute. reflexivity.
Qed.

(** ** Deleting an account *)

Lemma filter_drops_identity i (l : list Account) :
  Some i ∉ map models.id
             (List.filter (λ r, negb (bool_decide (models.id r = Some i))) l).
Proof. rewrite ids_filter, elem_of_ids_filter. tauto. Qed.

(** C6: a DELETE /accounts/{id} on an existing identity answers 204 with
    an empty body and removes the account: a following GET on that
    identity answers 404, and so does every later GET, whatever requests
    the server has served in between; a DELETE on an identity that is
    not in the store answers 404. *)
Theorem delete_account_deletes (account_id : Z) (w : World) :
  wf_store (db w) →
  (exists_in (db w) account_id →
   outcome (delete_account account_id) w
     = inr (mk_response status.HTTP_204_NO_CONTENT (Text "") [])
   ∧ ¬ exists_in (db (after (delete_account account_id) w)) account_id
   ∧ status_of (outcome (get_accounts account_id)
                  (after (delete_account account_id) w))
     = status.HTTP_404_NOT_FOUND
   ∧ ∀ reqs,
       status_of (outcome (get_accounts account_id)
                    (serve_all reqs (after (delete_account account_id) w)))
       = status.HTTP_404_NOT_FOUND)
  ∧ (¬ exists_in (db w) account_id →
     status_of (outcome (delete_account account_id) w)
       = status.HTTP_404_NOT_FOUND).
Proof.
  intros Hwf. split.
  - intros Hex. destruct (find_exists _ _ Hex) as [a Hfind].
    assert (account_id < next_id (db w))%Z as Hlt.
    { apply wf_store_ids in Hwf as (_ & Hall & _).
      apply exists_in_ids in Hex. apply Hall in Hex as (i & [= <-] & Hlt). done. }
    unfold outcome at 1, after. rewrite delete_account_run. simpl.
    rewrite Hfind. simpl. apply find_has_id in Hfind as [_ Hid]. rewrite Hid.
    set (w' := mk_World _ _ _ _).
    assert (¬ exists_in (db w') account_id) as Hgone.
    { rewrite exists_in_ids. apply filter_drops_identity. }
    split; [done|]. split; [done|]. split.
    + by rewrite get_accounts_absent.
    + intros reqs. rewrite get_accounts_absent; [done|].
      by apply serve_all_gone.
  - intros Hno. unfold outcome. rewrite delete_account_run. simpl.
    destruct (List.find _ _) as [b|] eqn:E; [|done].
    apply find_has_id in E. destruct Hno. by exists b.
Qed.

Lemma delete_account_deletes_witness :
  outcome (delete_account 1) sample.with_ann = inr (mk_response 204 (Text "") [])
  ∧ status_of (outcome (get_accounts 1) (after (delete_account 1) sample.with_ann))
    = 404
  ∧ status_of (outcome (get_accounts 1)
                 (serve_all [sample.post sample.json_headers sample.bob]
                    (after (delete_account 1) sample.with_ann)))
    = 404
  ∧ status_of (outcome (delete_account 0) sample.with_ann) = 404.
Proof.
  assert (wf_store (db sample.with_ann)) as Hwf.
  { apply (bool_decide_unpack (wf_store _)). vm_compute. exact I. }
  destruct (delete_account_deletes 1 sample.with_ann Hwf) as [Hok _].
  destruct Hok as (Hout & _ & Hget & Hlater).
  { exists sample.ann_account. split; [left | reflexivity]. }
  destruct (delete_account_deletes 0 sample.with_ann Hwf) as [_ Hno].
  split; [exact Hout|]. split; [exact Hget|]. split; [apply Hlater|].
  apply Hno. intros (a & Hin & Hid).
  apply list_elem_of_singleton in Hin. subst a. discriminate.
Defined.

(** ** Listing the accounts *)

Lemma create_accounts_appends req w :
  acceptable req →
  ∃ a, rows (db (after (create_accounts req) w)) = (rows (db w) ++ [a])%list.
Proof.
  unfold acceptable. intros Hacc.
  apply andb_prop_elim in Hacc as [Hct Hreq].
  apply bool_decide_unpack in Hct.
  apply Is_true_true, has_required_true in Hreq as (n & e & Hn & He).
  unfold after. rewrite (create_accounts_run_ok req w n e Hct Hn He). simpl.
  by eexists.
Qed.

Lemma create_all_length reqs w :
  Forall (λ req, acceptable req) reqs →
  length (rows (db (create_all reqs w)))
  = (length (rows (db w)) + length reqs)%nat.
Proof.
  unfold create_all. intros Hall. revert w.
  induction Hall as [|req reqs Hacc _ IH]; intros w; simpl; [lia|].
  rewrite IH. destruct (create_accounts_appends req w Hacc) as [a ->].
  rewrite length_app. simpl. lia.
Qed.

(** C7: in every state GET /accounts answers 200 with a JSON sequence
    that holds the serialization of each persisted account, one entry
    per account in the order of the store; so after n accepted creations
    on an empty store the sequence has n entries, 3 after 3. *)
Theorem list_accounts_lists (w : World) :
  outcome list_accounts w
    = inr (mk_response status.HTTP_200_OK
             (JsonArray (map Account_ops.serialize (rows (db w)))) [])
  ∧ length (map Account_ops.serialize (rows (db w))) = length (rows (db w))
  ∧ db (after list_accounts w) = db w
  ∧ ∀ reqs,
      rows (db w) = [] →
      Forall (λ req, acceptable req) reqs →
      ∃ l, outcome list_accounts (create_all reqs w)
             = inr (mk_response status.HTTP_200_OK (JsonArray l) [])
           ∧ length l = length reqs.
Proof.
  unfold outcome, after.
  split; [by rewrite list_accounts_run|]. split; [apply length_map|].
  split; [by rewrite list_accounts_run|].
  intros reqs Hempty Hall. rewrite list_accounts_run. cbn [fst].
  eexists. split; [done|].
  rewrite length_map, create_all_length, Hempty by done. done.
Qed.

Lemma list_accounts_lists_witness :
  ∃ l, outcome list_accounts
         (create_all [sample.post sample.json_headers sample.ann;
                      sample.post sample.json_headers sample.bob;
                      sample.post sample.json_headers sample.ann] sample.fresh)
       = inr (mk_response 200 (JsonArray l) [])
     ∧ length l = 3%nat.
Proof.
  destruct (list_accounts_lists sample.fresh) as (_ & _ & _ & Hthree).
  apply (Hthree [sample.post sample.json_headers sample.ann;
                 sample.post sample.json_headers sample.bob;
                 sample.post sample.json_headers sample.ann]).
  - reflexivity.
  - repeat constructor.
Defined.

(** ** The status codes each view can answer *)

Lemma find_none_absent i s :
  List.find (Account_ops.has_id i) (rows s) = None → ¬ exists_in s i.
Proof.
  intros Hfind (a & Hin & Hid). rewrite find_absent in Hfind.
  by destruct (Hfind a Hin).
Qed.

Lemma find_some_exists i s a :
  List.find (Account_ops.has_id i) (rows s) = Some a → exists_in s i.
Proof. intros Hfind. apply find_has_id in Hfind. by exists a. Qed.

Lemma call_status v req w :
  let st := status_of (outcome (call v req) w) in
  let s' := db (after (call v req) w) in
  match v with
  | view_health | view_index | view_list_accounts => st = 200
  | view_create_accounts => st = 201 ∨ st = 400 ∨ st = 415
  | view_get_accounts i =>
      (exists_in (db w) i ∧ st = 200)
      ∨ (¬ exists_in (db w) i ∧ st = 404 ∧ s' = db w)
  | view_update_accounts i =>
      (exists_in (db w) i ∧ (st = 200 ∨ st = 400 ∨ st = 415))
      ∨ (¬ exists_in (db w) i ∧ st = 404 ∧ s' = db w)
  | view_delete_account i =>
      (exists_in (db w) i ∧ st = 204)
      ∨ (¬ exists_in (db w) i ∧ st = 404 ∧ s' = db w)
  end.
Proof.
  unfold outcome, after. destruct v as [| | | |i|i|i]; cbn [call].
  - reflexivity.
  - reflexivity.
  - destruct (decide (headers req !! "Content-Type" = Some "application/json"))
      as [Hct|Hct].
    + destruct (has_required (json req)) eqn:E.
      * apply has_required_true in E as (n & e & Hn & He).
        rewrite (create_accounts_run_ok req w n e Hct Hn He). by left.
      * destruct (create_accounts_run_bad req w Hct) as [key ->].
        { intros n e [Hn He].
          assert (has_required (json req) = true); [|congruence].
          apply has_required_true. by exists n, e. }
        right. by left.
    + rewrite (create_accounts_rejected req w Hct). right. by right.
  - by rewrite list_accounts_run.
  - rewrite get_accounts_run. cbn zeta.
    destruct (List.find _ _) as [a|] eqn:E.
    + left. split; [by eapply find_some_exists | done].
    + right. split; [by apply find_none_absent | done].
  - destruct (List.find (Account_ops.has_id i) (rows (db w))) as [a|] eqn:E.
    + left. split; [by eapply find_some_exists|].
      destruct (is_json req) eqn:Hjson.
      * destruct (has_required (json req)) eqn:Hreq.
        -- apply has_required_true in Hreq as (n & e & Hn & He).
           rewrite (update_accounts_run_ok _ _ _ _ _ _ Hjson E Hn He). by left.
        -- destruct (update_accounts_run_bad _ _ _ _ Hjson E Hreq) as [key ->].
           right. by left.
      * rewrite (update_accounts_run_not_json _ _ _ _ Hjson E). cbn zeta.
        destruct (non_json w); [right; by left | right; by left | right; by right].
    + right. apply find_none_absent in E.
      rewrite (update_accounts_run_404 _ _ _ E). done.
  - rewrite delete_account_run. cbn zeta.
    destruct (List.find _ _) as [a|] eqn:E.
    + left. split; [by eapply find_some_exists | done].
    + right. split; [by apply find_none_absent | done].
Qed.

(** C8: whenever a read, update or delete by identity is answered 404,
    the identity was not in the store and the store is left exactly as
    it was; no other view answers 404. *)
Theorem not_found_leaves_store (v : view) (req : request) (w : World) :
  status_of (outcome (call v req) w) = status.HTTP_404_NOT_FOUND →
  db (after (call v req) w) = db w
  ∧ ∃ account_id,
      (v = view_get_accounts account_id
       ∨ v = view_update_accounts account_id
       ∨ v = view_delete_account account_id)
      ∧ ¬ exists_in (db w) account_id.
Proof.
  intros H404. pose proof (call_status v req w) as Hst. cbn zeta in Hst.
  rewrite H404 in Hst. unfold status.HTTP_404_NOT_FOUND in Hst.
  destruct v as [| | | |i|i|i]; try discriminate.
  - destruct Hst as [|[|]]; discriminate.
  - destruct Hst as [[_ ?]|(Hno & _ & Hdb)]; [discriminate|].
    split; [done|]. exists i. split; [by left | done].
  - destruct Hst as [[_ [|[|]]]|(Hno & _ & Hdb)]; [discriminate..|].
    split; [done|]. exists i. split; [right; by left | done].
  - destruct Hst as [[_ ?]|(Hno & _ & Hdb)]; [discriminate|].
    split; [done|]. exists i. split; [right; by right | done].
Qed.

Lemma not_found_leaves_store_witness :
  db (after (update_accounts 99999 (sample.put "/accounts/99999" sample.bob))
        sample.with_ann) = db sample.with_ann
  ∧ db (after (get_accounts 0) sample.with_ann) = db sample.with_ann
  ∧ db (after (delete_account 0) sample.with_ann) = db sample.with_ann.
Proof.
  split; [|split].
  - apply (not_found_leaves_store (view_update_accounts 99999)
             (sample.put "/accounts/99999" sample.bob) sample.with_ann).
    vm_compute. reflexivity.
  - apply (not_found_leaves_store (view_get_accounts 0)
             (sample.get "/accounts/0") sample.with_ann).
    vm_compute. reflexivity.
  - apply (not_found_leaves_store (view_delete_account 0)
             (sample.get "/accounts/0") sample.with_ann).
    vm_compute. reflexivity.
Defined.

(** ** No media-type check outside creation *)






(** * Further properties of the routing layer *)

(** ** The media-type check on its own *)

(** X1: [check_content_type] lets a request through exactly when the
    Content-Type header is there, is not empty and equals the expected
    media type, and then it does nothing at all; in every other case it
    logs the offending value and aborts with 415.  An empty expected
    media type is therefore never satisfied, not even by an empty
    header. *)
Theorem check_content_type_decides (req : request) (media_type : string) (w : World) :
  (headers req !! "Content-Type" = Some media_type ∧ media_type ≠ "" →
   check_content_type req media_type w = (inr tt, w))
  ∧ (¬ (headers req !! "Content-Type" = Some media_type ∧ media_type ≠ "") →
     outcome (check_content_type req media_type) w
       = inl (HTTPException 415 ("Content-Type must be " ++ media_type))
     ∧ emitted (check_content_type req media_type) w
       = [LoggerError ("Invalid Content-Type: "
                         ++ str_opt (headers req !! "Content-Type"))]
     ∧ db (after (check_content_type req media_type) w) = db w)
  ∧ outcome (check_content_type req "") w
    = inl (HTTPException 415 "Content-Type must be ").
Proof.
  assert (∀ mt, ¬ (headers req !! "Content-Type" = Some mt ∧ mt ≠ "") →
            check_content_type req mt w
            = (inl (HTTPException 415 ("Content-Type must be " ++ mt)),
               logged w [LoggerError ("Invalid Content-Type: "
                                        ++ str_opt (headers req !! "Content-Type"))]))
    as Hrej.
  { intros mt Hno. unfold check_content_type, logged.
    destruct (headers req !! "Content-Type") as [ct|] eqn:E; [|done].
    destruct (String.eqb_spec ct "") as [->|Hne]; [done|]. simpl.
    destruct (String.eqb_spec ct mt) as [->|_]; [|done].
    destruct Hno. done. }
  split; [|split].
  - intros [Hct Hne]. by apply check_content_type_accepts.
  - intros Hno. unfold emitted, outcome, after. rewrite (Hrej _ Hno). simpl.
    by rewrite drop_app_length.
  - unfold outcome. rewrite Hrej; [done|]. by intros [_ ?].
Qed.

Lemma check_content_type_decides_witness :
  check_content_type (sample.post sample.json_headers sample.ann) "application/json"
    sample.fresh = (inr tt, sample.fresh)
  ∧ outcome (check_content_type (sample.post ∅ sample.ann) "application/json")
      sample.fresh
    = inl (HTTPException 415 "Content-Type must be application/json").
Proof.
  split.
  - apply (check_content_type_decides (sample.post sample.json_headers sample.ann)
             "application/json" sample.fresh).
    split; [vm_compute; reflexivity | discriminate].
  - apply (check_content_type_decides (sample.post ∅ sample.ann)
             "application/json" sample.fresh).
    intros [Hct _]. vm_compute in Hct. discriminate.
Defined.

(** ** How the checks of the creation handler compose *)

Lemma acceptable_spec req :
  acceptable req = true ↔
  headers req !! "Content-Type" = Some "application/json"
  ∧ ∃ n e, json req !! "name" = Some (VStr n) ∧ json req !! "email" = Some (VStr e).
Proof.
  unfold acceptable.
  by rewrite andb_true_iff, bool_decide_eq_true, has_required_true.
Qed.

(** X2: the creation handler checks the media type first and the body
    second: the answer is 415 whenever the Content-Type is not
    application/json, whatever the body; otherwise 400 when name or
    email is absent or not a string; otherwise 201.  An account is
    stored exactly in the last case. *)
Theorem create_accounts_status_decided (req : request) (w : World) :
  status_of (outcome (create_accounts req) w)
    = (if bool_decide (headers req !! "Content-Type" = Some "application/json")
       then if has_required (json req) then 201 else 400
       else 415)
  ∧ (acceptable req = false → db (after (create_accounts req) w) = db w)
  ∧ (acceptable req = true →
     length (rows (db (after (create_accounts req) w)))
     = S (length (rows (db w)))).
Proof.
  unfold outcome, after.
  destruct (decide (headers req !! "Content-Type" = Some "application/json"))
    as [Hct|Hct].
  - rewrite bool_decide_eq_true_2 by done.
    destruct (has_required (json req)) eqn:E.
    + apply has_required_true in E as (n & e & Hn & He).
      rewrite (create_accounts_run_ok req w n e Hct Hn He). simpl.
      split; [done|]. split.
      * intros Hacc. assert (acceptable req = true); [|congruence].
        apply acceptable_spec. split; [done|]. by exists n, e.
      * intros _. rewrite length_app. simpl. lia.
    + destruct (create_accounts_run_bad req w Hct) as [key ->].
      { intros n e [Hn He].
        assert (has_required (json req) = true); [|congruence].
        apply has_required_true. by exists n, e. }
      split; [done|]. split; [done|].
      intros Hacc. apply acceptable_spec in Hacc as [_ Hreq].
      apply has_required_true in Hreq. congruence.
  - rewrite bool_decide_eq_false_2 by done.
    rewrite (create_accounts_rejected req w Hct). simpl.
    split; [done|]. split; [done|].
    intros Hacc. by apply acceptable_spec in Hacc as [? _].
Qed.

Lemma create_accounts_status_decided_witness :
  status_of (outcome (create_accounts (sample.post sample.html_headers sample.only_name))
               sample.fresh) = 415
  ∧ db (after (create_accounts (sample.post sample.html_headers sample.only_name))
          sample.fresh) = db sample.fresh
  ∧ length (rows (db (after (create_accounts (sample.post sample.json_headers sample.ann))
                        sample.fresh))) = 1%nat.
Proof.
  destruct (create_accounts_status_decided
              (sample.post sample.html_headers sample.only_name) sample.fresh)
    as (Hst & Hsame & _).
  destruct (create_accounts_status_decided
              (sample.post sample.json_headers sample.ann) sample.fresh)
    as (_ & _ & Hgrow).
  split; [exact Hst|]. split; [apply Hsame; reflexivity | apply Hgrow; reflexivity].
Defined.

(** ** Lookup comes before the body *)

(** X3: the update handler looks the identity up before it touches the
    request: on an identity that is not in the store the answer is 404
    whatever the body holds, even one that deserialization would
    reject, and the body is neither read nor deserialized. *)
Theorem update_accounts_absent_ignores_body
    (account_id : Z) (req : request) (w : World) :
  ¬ exists_in (db w) account_id →
  outcome (update_accounts account_id req) w
    = inl (HTTPException 404 ("Account with id [" ++ pretty account_id
                                ++ "] could not be found."))
  ∧ emitted (update_accounts account_id req) w
    = [LoggerInfo ("Request to update an Account with id: " ++ pretty account_id);
       DbFind account_id]
  ∧ (GetJson ∉ emitted (update_accounts account_id req) w)
  ∧ (Deserialize ∉ emitted (update_accounts account_id req) w)
  ∧ ∀ req', update_accounts account_id req' w = update_accounts account_id req w.
Proof.
  intros Hno. unfold emitted, outcome, after.
  rewrite (update_accounts_run_404 _ _ _ Hno). simpl.
  rewrite drop_app_length.
  split; [done|]. split; [done|]. split; [|split].
  - intros H. repeat (apply elem_of_cons in H as [H|H]; [discriminate|]).
    by apply elem_of_nil in H.
  - intros H. repeat (apply elem_of_cons in H as [H|H]; [discriminate|]).
    by apply elem_of_nil in H.
  - intros req'. by rewrite (update_accounts_run_404 _ _ _ Hno).
Qed.

Lemma update_accounts_absent_ignores_body_witness :
  status_of (outcome (update_accounts 7 (sample.put "/accounts/7" sample.only_name))
               sample.with_ann) = 404.
Proof.
  destruct (update_accounts_absent_ignores_body 7
              (sample.put "/accounts/7" sample.only_name) sample.with_ann)
    as (Hout & _).
  - intros (a & Hin & Hid).
    apply list_elem_of_singleton in Hin. subst a. discriminate.
  - unfold status_of. rewrite Hout. reflexivity.
Defined.

(** ** The answers a view can give *)

(** X4: whatever the request and the state, a view answers with one of
    the codes 200, 201, 204, 400, 404 and 415; in particular the
    creation handler never fails to build its Location URL, so no
    request ends in an unhandled error. *)
Theorem call_never_fails_unhandled (v : view) (req : request) (w : World) :
  status_of (outcome (call v req) w) ∈ [200; 201; 204; 400; 404; 415]
  ∧ outcome (call v req) w ≠ inl BuildError.
Proof.
  assert (status_of (outcome (call v req) w) ∈ [200; 201; 204; 400; 404; 415])
    as Hin.
  { pose proof (call_status v req w) as Hst. cbn zeta in Hst.
    destruct v as [| | | |i|i|i].
    - rewrite Hst. set_solver.
    - rewrite Hst. set_solver.
    - destruct Hst as [->|[->| ->]]; set_solver.
    - rewrite Hst. set_solver.
    - destruct Hst as [[_ ->]|(_ & -> & _)]; set_solver.
    - destruct Hst as [[_ [->|[->| ->]]]|(_ & -> & _)]; set_solver.
    - destruct Hst as [[_ ->]|(_ & -> & _)]; set_solver. }
  split; [done|]. intros Hb. rewrite Hb in Hin. simpl in Hin.
  repeat (apply elem_of_cons in Hin as [Hin|Hin]; [discriminate|]).
  by apply elem_of_nil in Hin.
Qed.

(** ** Requests with the verb GET *)

Lemma url_map_GET p v :
  url_map "GET" p = Some v →
  v = view_health ∨ v = view_index ∨ v = view_list_accounts
  ∨ ∃ i, v = view_get_accounts i.
Proof.
  unfold url_map.
  change (String.eqb "GET" "GET") with true.
  change (String.eqb "GET" "POST") with false. cbv iota.
  destruct (String.eqb p "/health"); [intros [= <-]; by left|].
  destruct (String.eqb p "/"); [intros [= <-]; right; by left|].
  destruct (String.eqb p "/accounts"); [intros [= <-]; right; right; by left|].
  destruct (strip_prefix "/accounts/" p) as [rest|]; [|done].
  destruct (int_converter rest) as [i|]; [|done].
  intros [= <-]. right; right; right. by exists i.
Qed.

(** X5: a request with the verb GET is safe: whichever rule serves it
    (health, index, list or read), the view leaves the database exactly
    as it was, never reads a request body, and answers 200 or 404. *)
Theorem get_requests_are_safe (req : request) (w : World) (m : M response) :
  method req = "GET" →
  dispatch req = Some m →
  db (after m w) = db w
  ∧ (GetJson ∉ emitted m w)
  ∧ (status_of (outcome m w) = 200 ∨ status_of (outcome m w) = 404).
Proof.
  intros Hverb Hm. unfold dispatch in Hm. rewrite Hverb in Hm.
  destruct (url_map "GET" (path req)) as [v|] eqn:Hv; [|done].
  injection Hm as <-.
  apply url_map_GET in Hv as [->|[->|[->|[i ->]]]];
    unfold emitted, outcome, after; cbn [call].
  - simpl. rewrite drop_all. split; [done|]. split; [apply not_elem_of_nil | by left].
  - simpl. rewrite drop_all. split; [done|]. split; [apply not_elem_of_nil | by left].
  - rewrite list_accounts_run. simpl. rewrite drop_app_length.
    split; [done|]. split; [|by left].
    intros H. repeat (apply elem_of_cons in H as [H|H]; [discriminate|]).
    by apply elem_of_nil in H.
  - rewrite get_accounts_run. cbn zeta.
    destruct (List.find _ _); simpl; rewrite drop_app_length;
      (split; [done|]); (split; [|by (left + right)]);
      intros H; repeat (apply elem_of_cons in H as [H|H]; [discriminate|]);
      by apply elem_of_nil in H.
Qed.

Lemma get_requests_are_safe_witness :
  db (after (get_accounts 1) sample.with_ann) = db sample.with_ann
  ∧ db (after list_accounts sample.with_ann) = db sample.with_ann.
Proof.
  split.
  - apply (get_requests_are_safe (sample.get "/accounts/1") sample.with_ann
             (get_accounts 1)); reflexivity.
  - apply (get_requests_are_safe (sample.get "/accounts") sample.with_ann
             list_accounts); reflexivity.
Defined.

(** ** The rule for a single account *)

Lemma url_map_by_id verb (account_id : Z) :
  (0 ≤ account_id)%Z →
  url_map verb ("/accounts/" ++ pretty account_id)
  = if String.eqb verb "GET" then Some (view_get_accounts account_id)
    else if String.eqb verb "PUT" then Some (view_update_accounts account_id)
    else if String.eqb verb "DELETE" then Some (view_delete_account account_id)
    else None.
Proof.
  intros Hi. unfold url_map.
  rewrite strip_prefix_app, int_converter_pretty by done.
  reflexivity.
Qed.

(** X6: the URL [url_for] builds for an identity is read back by the
    rule [/accounts/<int:account_id>]: for a non-negative identity the
    path reaches the read, update and delete views of exactly that
    identity under GET, PUT and DELETE, and no view under POST; and
    different identities get different URLs. *)
Theorem url_for_round_trip (root : string) (account_id : Z) :
  (0 ≤ account_id)%Z →
  (∀ req, url_root req = root → url req = get_accounts_url root account_id →
     (method req = "GET" → dispatch req = Some (get_accounts account_id))
     ∧ (method req = "PUT" → dispatch req = Some (update_accounts account_id req))
     ∧ (method req = "DELETE" → dispatch req = Some (delete_account account_id))
     ∧ (method req = "POST" → dispatch req = None))
  ∧ ∀ j, get_accounts_url root j = get_accounts_url root account_id → j = account_id.
Proof.
  intros Hi. split.
  - intros req Hroot Hurl. unfold url, get_accounts_url in Hurl.
    rewrite Hroot in Hurl. apply (inj (String.app root)) in Hurl.
    unfold dispatch. rewrite Hurl, url_map_by_id by done.
    repeat split; by intros ->.
  - intros j Hj. unfold get_accounts_url in Hj.
    apply (inj (String.app root)) in Hj.
    apply (inj (String.app "/accounts/")) in Hj. by apply (inj pretty).
Qed.

Lemma url_for_round_trip_witness :
  dispatch (sample.get "/accounts/42") = Some (get_accounts 42).
Proof.
  destruct (url_for_round_trip "http://localhost" 42) as [Hreq _]; [lia|].
  apply (Hreq (sample.get "/accounts/42")); reflexivity.
Defined.

Lemma strip_prefix_Some (p s r : string) : strip_prefix p s = Some r → s = p ++ r.
Proof.
  revert s. induction p as [|a p IH]; intros s H; simpl in H.
  - by injection H as ->.
  - destruct s as [|b s]; [done|].
    destruct (Ascii.eqb_spec a b) as [->|]; [|done].
    apply IH in H. by rewrite H.
Qed.

(** X7: the variable part of the rule is an unsigned decimal number: an
    identity that reaches a by-id view is never negative and was spelt
    after [/accounts/] in the path, and a path whose identity part is
    empty or starts with a sign reaches no view at all, whatever the
    verb. *)
Theorem url_map_identity_unsigned (verb p : string) (v : view) :
  (url_map verb p = Some v →
   ∀ i, v = view_get_accounts i ∨ v = view_update_accounts i
        ∨ v = view_delete_account i →
        (0 ≤ i)%Z ∧ ∃ rest, p = "/accounts/" ++ rest ∧ int_converter rest = Some i)
  ∧ url_map verb "/accounts/" = None
  ∧ ∀ s, url_map verb ("/accounts/-" ++ s) = None.
Proof.
  split; [|split].
  - unfold url_map. intros Hv i Hi.
    destruct (String.eqb p "/health").
    { destruct (String.eqb verb "GET"); [|done].
      injection Hv as <-. destruct Hi as [|[|]]; discriminate. }
    destruct (String.eqb p "/").
    { destruct (String.eqb verb "GET"); [|done].
      injection Hv as <-. destruct Hi as [|[|]]; discriminate. }
    destruct (String.eqb p "/accounts").
    { destruct (String.eqb verb "POST");
        [injection Hv as <-; destruct Hi as [|[|]]; discriminate|].
      destruct (String.eqb verb "GET"); [|done].
      injection Hv as <-. destruct Hi as [|[|]]; discriminate. }
    destruct (strip_prefix "/accounts/" p) as [rest|] eqn:Hp; [|done].
    destruct (int_converter rest) as [j|] eqn:Hj; [|done].
    assert (i = j) as ->.
    { destruct (String.eqb verb "GET");
        [injection Hv as <-; destruct Hi as [|[|]]; congruence|].
      destruct (String.eqb verb "PUT");
        [injection Hv as <-; destruct Hi as [|[|]]; congruence|].
      destruct (String.eqb verb "DELETE"); [|done].
      injection Hv as <-. destruct Hi as [|[|]]; congruence. }
    split.
    + unfold int_converter in Hj. destruct rest as [|c rest]; [done|].
      destruct (digits_go 0 (String c rest)) as [k|]; [|done].
      injection Hj as <-. lia.
    + exists rest. split; [by apply strip_prefix_Some | done].
  - reflexivity.
  - intros s. reflexivity.
Qed.

Lemma url_map_identity_unsigned_witness :
  (0 ≤ 7)%Z ∧ url_map "GET" "/accounts/-7" = None.
Proof.
  destruct (url_map_identity_unsigned "GET" "/accounts/007" (view_get_accounts 7))
    as (Hpos & _ & Hsign).
  split.
  - apply (Hpos eq_refl 7). by left.
  - apply (Hsign "7").
Defined.

(** ** Repeating a request *)

Lemma find_filter_same i (l : list Account) :
  List.find (Account_ops.has_id i)
    (List.filter (λ r, negb (bool_decide (models.id r = Some i))) l) = None.
Proof.
  apply find_absent. intros a Ha Hid.
  apply list_elem_of_In, filter_In in Ha as [_ Ha].
  apply negb_true_iff, bool_decide_eq_false in Ha. done.
Qed.

(** X8: deleting is not repeatable at the HTTP level: the first DELETE
    of an existing identity answers 204, a second DELETE of the same
    identity right after it answers 404 and leaves the store as the
    first one left it. *)
Theorem delete_account_twice (account_id : Z) (w : World) :
  exists_in (db w) account_id →
  status_of (outcome (delete_account account_id) w) = 204
  ∧ status_of (outcome (delete_account account_id)
                 (after (delete_account account_id) w)) = 404
  ∧ db (after (delete_account account_id) (after (delete_account account_id) w))
    = db (after (delete_account account_id) w).
Proof.
  intros Hex. destruct (find_exists _ _ Hex) as [a Hfind].
  unfold outcome, after. rewrite (delete_account_run account_id w). cbn zeta.
  rewrite Hfind. cbn [fst snd]. apply find_has_id in Hfind as [_ Hid].
  rewrite Hid. rewrite delete_account_run. cbn zeta. cbn [db rows].
  rewrite find_filter_same. done.
Qed.

Lemma delete_account_twice_witness :
  status_of (outcome (delete_account 1) sample.with_ann) = 204
  ∧ status_of (outcome (delete_account 1) (after (delete_account 1) sample.with_ann))
    = 404.
Proof.
  destruct (delete_account_twice 1 sample.with_ann) as (H1 & H2 & _).
  - exists sample.ann_account. split; [left | reflexivity].
  - split; [exact H1 | exact H2].
Defined.

Lemma replaced_idem (a : Account) (l : list Account) :
  replaced a (replaced a l) = replaced a l.
Proof.
  unfold replaced. rewrite map_map. apply map_ext. intros r.
  destruct (decide (models.id r = models.id a)) as [Heq|Hne].
  - rewrite (bool_decide_eq_true_2 _ Heq). by rewrite bool_decide_eq_true_2.
  - rewrite (bool_decide_eq_false_2 _ Hne). by rewrite bool_decide_eq_false_2.
Qed.

Lemma deserialize_fails_uniformly (d : mapping) :
  has_required d = false →
  ∃ key, ∀ self w,
    Account_ops.deserialize self (Some d) w
    = (inl (DataValidationError key), logged w [Deserialize]).
Proof.
  intros Hbad. unfold has_required in Hbad.
  unfold Account_ops.deserialize, Account_ops.required. unfold_M. simpl.
  destruct (d !! "name") as [[| | |n]|]; try (by exists "name").
  destruct (d !! "email") as [[| | |e]|]; by exists "email".
Qed.

(** X9: updating is repeatable: sending the same PUT a second time
    gives the same answer as the first time and leaves the store as the
    first one left it, whatever the first was answered (200, 400, 404,
    or the framework's 415 for a body not declared as JSON). *)
Theorem update_accounts_idempotent (account_id : Z) (req : request) (w : World) :
  outcome (update_accounts account_id req) (after (update_accounts account_id req) w)
    = outcome (update_accounts account_id req) w
  ∧ db (after (update_accounts account_id req) (after (update_accounts account_id req) w))
    = db (after (update_accounts account_id req) w).
Proof.
  unfold outcome, after.
  destruct (List.find (Account_ops.has_id account_id) (rows (db w)))
    as [a|] eqn:Hfind.
  - destruct (is_json req) eqn:Hjson.
    + destruct (has_required (json req)) eqn:Hreq.
      * apply has_required_true in Hreq as (n & e & Hn & He).
        rewrite (update_accounts_run_ok _ _ w _ _ _ Hjson Hfind Hn He). cbn [fst snd].
        set (a' := populated (Some account_id) (json req) n e (today w)).
        set (w' := mk_World _ _ _ _).
        assert (List.find (Account_ops.has_id account_id) (rows (db w')) = Some a')
          as Hfind' by (by apply (find_replaced _ _ a)).
        rewrite (update_accounts_run_ok _ _ w' _ _ _ Hjson Hfind' Hn He).
        cbn [fst snd db rows today w']. fold a'.
        by rewrite replaced_idem.
      * destruct (deserialize_fails_uniformly (json req) Hreq) as [key Hkey].
        rewrite (update_accounts_run account_id req w). cbn zeta.
        rewrite Hfind, (get_json_run_json _ _ Hjson), Hkey. cbn [fst snd].
        rewrite update_accounts_run. cbn zeta. cbn [logged db rows].
        rewrite Hfind, (get_json_run_json _ _ Hjson), Hkey. done.
    + rewrite (update_accounts_run_not_json _ _ w _ Hjson Hfind). cbn zeta.
      destruct (non_json w) eqn:Hp; cbn [fst snd];
        rewrite (update_accounts_run_not_json _ _ (logged w _) a Hjson Hfind);
        cbn zeta; cbn [logged non_json]; by rewrite Hp.
  - apply find_none_absent in Hfind.
    rewrite (update_accounts_run_404 _ _ w Hfind). cbn [fst snd].
    rewrite (update_accounts_run_404 _ _ (logged w _)); [done|]. done.
Qed.

(** ** Requests on one account leave the others alone *)

Lemma get_accounts_outcome_rows j w w' :
  rows (db w') = rows (db w) →
  outcome (get_accounts j) w' = outcome (get_accounts j) w.
Proof.
  intros Hrows. unfold outcome. rewrite !get_accounts_run. cbn zeta.
  rewrite Hrows. by destruct (List.find _ _).
Qed.

Lemma get_accounts_outcome_find j w w' :
  List.find (Account_ops.has_id j) (rows (db w'))
  = List.find (Account_ops.has_id j) (rows (db w)) →
  outcome (get_accounts j) w' = outcome (get_accounts j) w.
Proof.
  intros Hfind. unfold outcome. rewrite !get_accounts_run. cbn zeta.
  rewrite Hfind.
  destruct (List.find (Account_ops.has_id j) (rows (db w))); reflexivity.
Qed.

Lemma find_replaced_other j a' l :
  models.id a' ≠ Some j →
  List.find (Account_ops.has_id j) (replaced a' l)
  = List.find (Account_ops.has_id j) l.
Proof.
  intros Hne. induction l as [|b l IH]; [done|]. simpl.
  case_bool_decide as Hb.
  - assert (Account_ops.has_id j a' = false) as ->.
    { apply not_true_is_false. by rewrite has_id_true. }
    assert (Account_ops.has_id j b = false) as ->.
    { apply not_true_is_false. rewrite has_id_true. congruence. }
    done.
  - by rewrite IH.
Qed.

Lemma find_filter_other j o (l : list Account) :
  o ≠ Some j →
  List.find (Account_ops.has_id j)
    (List.filter (λ r, negb (bool_decide (models.id r = o))) l)
  = List.find (Account_ops.has_id j) l.
Proof.
  intros Hne. induction l as [|b l IH]; [done|]. simpl.
  case_bool_decide as Hb; simpl.
  - assert (Account_ops.has_id j b = false) as ->.
    { apply not_true_is_false. rewrite has_id_true. congruence. }
    done.
  - by rewrite IH.
Qed.

(** X10: an update or a deletion on one identity does not change what a
    read of any other identity answers, whether the request went
    through or was refused. *)
Theorem other_accounts_untouched (i j : Z) (req : request) (w : World) :
  i ≠ j →
  outcome (get_accounts j) (after (update_accounts i req) w)
    = outcome (get_accounts j) w
  ∧ outcome (get_accounts j) (after (delete_account i) w)
    = outcome (get_accounts j) w.
Proof.
  intros Hij. split; apply get_accounts_outcome_find; unfold after.
  - rewrite update_accounts_run. cbn zeta.
    destruct (List.find (Account_ops.has_id i) (rows (db w))) as [a|] eqn:Hfind;
      [|done].
    apply find_has_id in Hfind as [_ Hid].
    destruct (is_json req) eqn:Hjson.
    + rewrite (get_json_run_json _ _ Hjson).
      destruct (has_required (json req)) eqn:Hreq.
      * apply has_required_true in Hreq as (n & e & Hn & He).
        rewrite (deserialize_run_ok _ _ _ _ _ Hn He). cbn [fst snd db rows logged].
        apply (find_replaced_other j
                 (populated (models.id a) (json req) n e (today w))).
        simpl. rewrite Hid. congruence.
      * destruct (deserialize_fails_uniformly (json req) Hreq) as [key ->]. done.
    + rewrite (get_json_run_not_json _ _ Hjson). cbn [logged non_json].
      destruct (non_json w); [by rewrite deserialize_run_None | done | done].
  - rewrite delete_account_run. cbn zeta.
    destruct (List.find (Account_ops.has_id i) (rows (db w))) as [a|] eqn:Hfind;
      [|done].
    apply find_has_id in Hfind as [_ Hid]. cbn [fst snd db rows].
    apply find_filter_other. rewrite Hid. congruence.
Qed.

Lemma other_accounts_untouched_witness :
  status_of (outcome (update_accounts 2 (sample.put "/accounts/2" sample.carol))
               sample.with_ann_bob) = 200
  ∧ status_of (outcome (delete_account 2) sample.with_ann_bob) = 204
  ∧ outcome (get_accounts 1)
      (after (update_accounts 2 (sample.put "/accounts/2" sample.carol))
         sample.with_ann_bob)
    = outcome (get_accounts 1) sample.with_ann_bob
  ∧ outcome (get_accounts 1) (after (delete_account 2) sample.with_ann_bob)
    = outcome (get_accounts 1) sample.with_ann_bob.
Proof.
  destruct (other_accounts_untouched 2 1 (sample.put "/accounts/2" sample.carol)
              sample.with_ann_bob) as [Hupdate Hdelete]; [discriminate|].
  split; [vm_compute; reflexivity|]. split; [vm_compute; reflexivity|].
  split; [exact Hupdate | exact Hdelete].
Defined.

Lemma find_app_other j l a :
  models.id a ≠ Some j →
  List.find (Account_ops.has_id j) (l ++ [a]) = List.find (Account_ops.has_id j) l.
Proof.
  intros Hne. induction l as [|b l IH]; simpl.
  - assert (Account_ops.has_id j a = false) as ->; [|done].
    apply not_true_is_false. by rewrite has_id_true.
  - by rewrite IH.
Qed.

(** X11: creating an account does not change what a read of an
    identity already in the store answers, whether the creation went
    through or was refused. *)
Theorem create_accounts_keeps_existing (j : Z) (req : request) (w : World) :
  wf_store (db w) →
  exists_in (db w) j →
  outcome (get_accounts j) (after (create_accounts req) w)
    = outcome (get_accounts j) w.
Proof.
  intros Hwf Hex.
  assert (j ≠ next_id (db w)) as Hne.
  { intros ->. by apply (wf_store_next_id_fresh _ Hwf). }
  unfold after.
  destruct (decide (headers req !! "Content-Type" = Some "application/json"))
    as [Hct|Hct].
  - destruct (has_required (json req)) eqn:E.
    + apply has_required_true in E as (n & e & Hn & He).
      rewrite (create_accounts_run_ok req w n e Hct Hn He). cbn zeta. cbn [snd].
      apply get_accounts_outcome_find. cbn [db rows].
      apply find_app_other. simpl. congruence.
    + destruct (create_accounts_run_bad req w Hct) as [key ->].
      { intros n e [Hn He].
        assert (has_required (json req) = true); [|congruence].
        apply has_required_true. by exists n, e. }
      by apply get_accounts_outcome_rows.
  - rewrite (create_accounts_rejected req w Hct).
    by apply get_accounts_outcome_rows.
Qed.

Lemma create_accounts_keeps_existing_witness :
  outcome (get_accounts 1)
    (after (create_accounts (sample.post sample.json_headers sample.bob))
       sample.with_ann)
  = outcome (get_accounts 1) sample.with_ann.
Proof.
  apply (create_accounts_keeps_existing 1
           (sample.post sample.json_headers sample.bob) sample.with_ann).
  - apply (bool_decide_unpack (wf_store _)). vm_compute. exact I.
  - exists sample.ann_account. split; [left | reflexivity].
Defined.

(** ** What a creation shows to later requests *)

Lemma serialize_id a : Account_ops.serialize a !! "id"
                       = Some (Account_ops.opt_value VInt (models.id a)).
Proof. reflexivity. Qed.

Lemma serialize_name a : Account_ops.serialize a !! "name"
                         = Some (Account_ops.opt_value VStr (models.name a)).
Proof. reflexivity. Qed.

Lemma serialize_email a : Account_ops.serialize a !! "email"
                          = Some (Account_ops.opt_value VStr (models.email a)).
Proof. reflexivity. Qed.

(** X12: an accepted creation answers with a body whose id field is the
    very identity its Location header points to and whose name and
    email fields are the submitted ones; and the list of accounts read
    right afterwards is the list as it was before, followed by that
    body. *)
Theorem create_accounts_listed (req : request) (w : World) :
  acceptable req = true →
  ∃ (m : mapping) (i : Z),
    outcome (create_accounts req) w
      = inr (mk_response 201 (JsonObject m)
               [("Location", url_root req ++ "/accounts/" ++ pretty i)])
    ∧ m !! "id" = Some (VInt i)
    ∧ m !! "name" = json req !! "name"
    ∧ m !! "email" = json req !! "email"
    ∧ outcome list_accounts (after (create_accounts req) w)
      = inr (mk_response 200
               (JsonArray (map Account_ops.serialize (rows (db w)) ++ [m])) []).
Proof.
  intros Hacc. apply acceptable_spec in Hacc as (Hct & n & e & Hn & He).
  exists (Account_ops.serialize
            (created (json req) n e (next_id (db w)) (today w))),
         (next_id (db w)).
  unfold outcome, after. rewrite (create_accounts_run_ok req w n e Hct Hn He).
  cbn zeta. cbn [fst snd]. rewrite list_accounts_run. cbn [fst db rows].
  rewrite map_app, serialize_id, serialize_name, serialize_email, Hn, He.
  done.
Qed.

Lemma create_accounts_listed_witness :
  ∃ m, outcome list_accounts
         (after (create_accounts (sample.post sample.json_headers sample.bob))
            sample.with_ann)
       = inr (mk_response 200
                (JsonArray [Account_ops.serialize sample.ann_account; m]) [])
     ∧ m !! "name" = Some (VStr "Bob").
Proof.
  destruct (create_accounts_listed (sample.post sample.json_headers sample.bob)
              sample.with_ann eq_refl)
    as (m & i & _ & _ & Hname & _ & Hlist).
  exists m. split; [exact Hlist | exact Hname].
Defined.

(** ** What a deletion shows to later requests *)

Lemma filter_unique_id (l1 l2 : list Account) a :
  NoDup (map models.id (l1 ++ a :: l2)) →
  List.filter (λ r, negb (bool_decide (models.id r = models.id a))) (l1 ++ a :: l2)
  = (l1 ++ l2)%list.
Proof.
  intros Hnd. rewrite map_app in Hnd. simpl in Hnd.
  apply NoDup_app in Hnd as (_ & Hl1 & Hnd).
  apply NoDup_cons in Hnd as [Hl2 _].
  assert (∀ l : list Account,
            models.id a ∉ map models.id l →
            List.filter (λ r, negb (bool_decide (models.id r = models.id a))) l = l)
    as Hkeep.
  { induction l as [|b l IH]; [done|]. simpl. intros Hb.
    apply not_elem_of_cons in Hb as [Hb Hl].
    rewrite bool_decide_eq_false_2 by congruence. simpl. by rewrite IH. }
  rewrite List.filter_app. simpl.
  rewrite bool_decide_eq_true_2 by done. simpl.
  rewrite !Hkeep; [done|done|].
  intros Hin. apply (Hl1 _ Hin). left.
Qed.

(** X13: a deletion that goes through takes exactly one entry out of
    the list of accounts, the one of the deleted identity, and keeps
    the others in their order. *)
Theorem delete_account_unlisted (account_id : Z) (w : World) :
  wf_store (db w) →
  exists_in (db w) account_id →
  ∃ l1 a l2,
    models.id a = Some account_id
    ∧ outcome list_accounts w
      = inr (mk_response 200
               (JsonArray (map Account_ops.serialize (l1 ++ a :: l2))) [])
    ∧ outcome list_accounts (after (delete_account account_id) w)
      = inr (mk_response 200
               (JsonArray (map Account_ops.serialize (l1 ++ l2))) []).
Proof.
  intros (Hnd & _ & _) Hex. destruct (find_exists _ _ Hex) as [a Hfind].
  pose proof (find_has_id _ _ _ Hfind) as [Hin Hid].
  apply list_elem_of_split in Hin as (l1 & l2 & Hrows).
  exists l1, a, l2. split; [done|].
  unfold outcome, after. rewrite !list_accounts_run. cbn [fst].
  rewrite delete_account_run. cbn zeta. rewrite Hfind. cbn [snd db rows].
  rewrite Hrows in Hnd |- *. by rewrite filter_unique_id.
Qed.

Lemma delete_account_unlisted_witness :
  outcome list_accounts (after (delete_account 1) sample.with_ann)
  = inr (mk_response 200 (JsonArray []) []).
Proof.
  destruct (delete_account_unlisted 1 sample.with_ann)
    as (l1 & a & l2 & _ & Hbefore & Hafter).
  - apply (bool_decide_unpack (wf_store _)). vm_compute. exact I.
  - exists sample.ann_account. split; [left | reflexivity].
  - rewrite Hafter. unfold outcome in Hbefore. rewrite list_accounts_run in Hbefore.
    injection Hbefore as Hbefore.
    apply (f_equal length) in Hbefore. rewrite !length_map, length_app in Hbefore.
    change (length (rows (db sample.with_ann))) with 1%nat in Hbefore.
    cbn [length] in Hbefore.
    destruct l1; [|cbn [length] in Hbefore; lia].
    destruct l2; [done|cbn [length] in Hbefore; lia].
Defined.

(** ** Every stored account can be read at its URL *)

Lemma store_step_unsigned s s' :
  wf_store s → ids_unsigned s → store_step s s' → ids_unsigned s'.
Proof.
  intros (_ & _ & Hpos) Hun Hstep. unfold ids_unsigned in *.
  destruct Hstep as [|a Hid|l Hids|o]; simpl; [done| | |].
  - intros x Hx. rewrite map_app in Hx.
    apply elem_of_app in Hx as [Hx|Hx]; [by apply Hun|].
    simpl in Hx. apply list_elem_of_singleton in Hx. subst x.
    exists (next_id s). split; [done | lia].
  - by rewrite Hids.
  - intros x Hx. rewrite ids_filter in Hx.
    apply elem_of_ids_filter in Hx as [Hx _]. by apply Hun.
Qed.

Lemma serve_all_unsigned reqs w :
  wf_store (db w) → ids_unsigned (db w) →
  wf_store (db (serve_all reqs w)) ∧ ids_unsigned (db (serve_all reqs w)).
Proof.
  unfold serve_all. revert w.
  induction reqs as [|req reqs IH]; intros w Hwf Hun; [done|]. simpl.
  apply IH.
  - eapply store_step_wf; [done | apply serve_store_step].
  - eapply store_step_unsigned; [done | done | apply serve_store_step].
Qed.

(** X14: the identities stay unique and unsigned through any sequence
    of requests, so that every account the store holds afterwards can
    be read: a GET at the URL [url_for] builds for its identity is
    routed to the read handler, which answers 200 with the
    serialization of that very account. *)
Theorem stored_accounts_stay_addressable (reqs : list request) (w : World) :
  wf_store (db w) →
  ids_unsigned (db w) →
  wf_store (db (serve_all reqs w))
  ∧ ∀ a, a ∈ rows (db (serve_all reqs w)) →
      ∃ i, models.id a = Some i
           ∧ (∀ req, method req = "GET" →
                url req = get_accounts_url (url_root req) i →
                dispatch req = Some (get_accounts i))
           ∧ outcome (get_accounts i) (serve_all reqs w)
             = inr (mk_response 200 (JsonObject (Account_ops.serialize a)) []).
Proof.
  intros Hwf Hun.
  destruct (serve_all_unsigned reqs w Hwf Hun) as [Hwf' Hun'].
  split; [done|]. intros a Hin.
  destruct (Hun' (models.id a)) as (i & Hid & Hi); [by apply list_elem_of_fmap_2|].
  exists i. split; [done|]. split.
  - intros req Hverb Hurl. unfold url, get_accounts_url in Hurl.
    apply (inj (String.app (url_root req))) in Hurl.
    unfold dispatch. by rewrite Hverb, Hurl, url_map_get_accounts.
  - destruct Hwf' as (Hnd & _ & _). unfold outcome.
    rewrite get_accounts_run. cbn zeta.
    by rewrite (find_unique _ _ _ Hnd Hin Hid).
Qed.

Lemma stored_accounts_stay_addressable_witness :
  outcome (get_accounts 1)
    (serve_all [sample.post sample.json_headers sample.ann;
                sample.post sample.json_headers sample.bob;
                mk_request "DELETE" "/accounts/2" ∅ ∅ "http://localhost"]
       sample.fresh)
  = inr (mk_response 200 (JsonObject (Account_ops.serialize sample.ann_account)) []).
Proof.
  destruct (stored_accounts_stay_addressable
              [sample.post sample.json_headers sample.ann;
               sample.post sample.json_headers sample.bob;
               mk_request "DELETE" "/accounts/2" ∅ ∅ "http://localhost"]
              sample.fresh) as [_ Hall].
  - apply (bool_decide_unpack (wf_store _)). vm_compute. exact I.
  - intros o Ho. vm_compute in Ho. by apply elem_of_nil in Ho.
  - destruct (Hall sample.ann_account) as (i & Hid & _ & Hget).
    + vm_compute. left.
    + injection Hid as <-. exact Hget.
Defined.

(** ** The test suite *)

Lemma client_post_accounts (d : mapping) (w : World) :
  tests.client_open "POST" tests.BASE_URL (Some d) None w
  = Some (create_accounts
            (mk_request "POST" "/accounts"
               {[ "Content-Type" := "application/json" ]} d "http://localhost") w).
Proof. reflexivity. Qed.

Lemma serialized_fake_accepted (a : Account) :
  tests.has_name_email a = true →
  ∃ n e, models.name a = Some n ∧ models.email a = Some e
         ∧ Account_ops.serialize a !! "name" = Some (VStr n)
         ∧ Account_ops.serialize a !! "email" = Some (VStr e).
Proof.
  unfold tests.has_name_email. intros H.
  destruct (models.name a) as [n|] eqn:Hn; [|done].
  destruct (models.email a) as [e|] eqn:He; [|done].
  exists n, e. rewrite serialize_name, serialize_email, Hn, He. done.
Qed.

Lemma stamped_ids (l : list Account) (n : Z) :
  map models.id (tests.stamped l n) = Some <$> seqZ n (Z.of_nat (length l)).
Proof.
  revert n. induction l as [|a l IH]; intros n; [done|].
  cbn [tests.stamped map length]. rewrite IH.
  rewrite Nat2Z.inj_succ, (seqZ_cons n) by lia.
  rewrite Z.pred_succ. done.
Qed.

Lemma create_accounts_loop_ok (factory : list Account) :
  ∀ accounts w,
    Forall (λ a, tests.has_name_email a) factory →
    ∃ w',
      tests.create_accounts_loop factory accounts w
        = Some ((accounts ++ tests.stamped factory (next_id (db w)))%list, w')
      ∧ map models.id (rows (db w'))
        = (map models.id (rows (db w))
             ++ map models.id (tests.stamped factory (next_id (db w))))%list
      ∧ next_id (db w') = (next_id (db w) + Z.of_nat (length factory))%Z.
Proof.
  induction factory as [|a factory IH]; intros accounts w Hall.
  - exists w. cbn [tests.create_accounts_loop tests.stamped map length].
    rewrite !app_nil_r. split; [done|]. split; [done|lia].
  - apply Forall_cons in Hall as [Ha Hall].
    apply Is_true_true in Ha.
    destruct (serialized_fake_accepted a Ha) as (n & e & Hname & Hemail & Hn & He).
    cbn [tests.create_accounts_loop]. rewrite client_post_accounts.
    rewrite (create_accounts_run_ok
               (mk_request "POST" "/accounts"
                  {[ "Content-Type" := "application/json" ]}
                  (Account_ops.serialize a) "http://localhost")
               w n e (lookup_singleton_eq _ _) Hn He). cbn zeta.
    unfold tests.status_code_of, tests.get_json_object. cbn [fst snd status_of
      status_code data]. cbn [negb]. rewrite bool_decide_eq_true_2 by done.
    cbn [negb]. rewrite serialize_id. cbn [created populated models.id
      Account_ops.opt_value tests.as_id].
    set (w1 := mk_World _ _ _ _).
    destruct (IH (accounts ++ [mk_Account (Some (next_id (db w))) (models.name a)
                                 (models.email a) (models.address a)
                                 (models.phone_number a) (models.date_joined a)])%list
                w1 Hall) as (w' & Hrun & Hids & Hnext).
    exists w'. rewrite Hrun. cbn [w1 db next_id rows tests.stamped] in *.
    rewrite <- app_assoc. split; [done|]. split.
    + rewrite Hids, map_app, <- app_assoc. done.
    + rewrite Hnext. cbn [length]. lia.
Qed.

(** X15: the helper [_create_accounts] of the test suite passes each of
    its assertions whenever the factory hands it accounts that have a
    name and an email: every POST is answered 201, and it returns the
    factory's accounts in order, carrying the consecutive identities the
    store assigned, all new to the store, which has grown by exactly
    those identities. *)
Theorem _create_accounts_returns_stored (factory : list Account) (w : World) :
  wf_store (db w) →
  Forall (λ a, tests.has_name_email a) factory →
  ∃ accounts w',
    tests._create_accounts factory w = Some (accounts, w')
    ∧ accounts = tests.stamped factory (next_id (db w))
    ∧ length accounts = length factory
    ∧ map models.id accounts
      = Some <$> seqZ (next_id (db w)) (Z.of_nat (length factory))
    ∧ map models.id (rows (db w'))
      = (map models.id (rows (db w)) ++ map models.id accounts)%list
    ∧ (∀ a i, a ∈ accounts → models.id a = Some i → ¬ exists_in (db w) i)
    ∧ wf_store (db w').
Proof.
  intros Hwf Hall. unfold tests._create_accounts.
  destruct (create_accounts_loop_ok factory [] w Hall) as (w' & Hrun & Hids & Hnext).
  exists (tests.stamped factory (next_id (db w))), w'.
  split; [done|]. split; [done|].
  pose proof (stamped_ids factory (next_id (db w))) as Hst.
  split; [by rewrite <- (length_map models.id), Hst, length_fmap, length_seqZ, Nat2Z.id|].
  split; [done|]. split; [done|].
  pose proof Hwf as Hwf0. apply wf_store_ids in Hwf as (Hnd & Hbelow & Hpos).
  split.
  - intros a i Ha Hid Hex. apply exists_in_ids, Hbelow in Hex as (j & [= <-] & Hlt).
    assert (Some i ∈ map models.id (tests.stamped factory (next_id (db w)))) as Hin
      by (rewrite <- Hid; by apply list_elem_of_fmap_2).
    rewrite Hst in Hin. apply list_elem_of_fmap in Hin as (k & [= <-] & Hk).
    apply elem_of_seqZ in Hk. lia.
  - apply wf_store_ids. rewrite Hids, Hst, Hnext. split; [|split; [|lia]].
    + apply NoDup_app. split; [done|]. split.
      * intros o Ho Ho'. apply Hbelow in Ho as (j & -> & Hlt).
        apply list_elem_of_fmap in Ho' as (k & [= <-] & Hk).
        apply elem_of_seqZ in Hk. lia.
      * apply (NoDup_fmap_2 _), NoDup_seqZ.
    + intros o Ho. apply elem_of_app in Ho as [Ho|Ho].
      * apply Hbelow in Ho as (j & -> & Hlt). exists j. split; [done|lia].
      * apply list_elem_of_fmap in Ho as (k & -> & Hk).
        apply elem_of_seqZ in Hk. exists k. split; [done|lia].
Qed.

Lemma _create_accounts_returns_stored_witness :
  ∃ accounts w',
    tests._create_accounts [sample.fake_carl; sample.fake_dora] sample.with_ann
      = Some (accounts, w')
    ∧ map models.id accounts = [Some 2; Some 3].
Proof.
  destruct (_create_accounts_returns_stored [sample.fake_carl; sample.fake_dora]
              sample.with_ann)
    as (accounts & w' & Hrun & _ & _ & Hids & _).
  - apply (bool_decide_unpack (wf_store _)). vm_compute. exact I.
  - repeat constructor.
  - exists accounts, w'. split; [exact Hrun | exact Hids].
Defined.

Lemma serialize_address a : Account_ops.serialize a !! "address"
  = Some (Account_ops.opt_value VStr (models.address a)).
Proof. reflexivity. Qed.

Lemma serialize_phone_number a : Account_ops.serialize a !! "phone_number"
  = Some (Account_ops.opt_value VStr (models.phone_number a)).
Proof. reflexivity. Qed.

Lemma serialize_date_joined a : Account_ops.serialize a !! "date_joined"
  = Some (Account_ops.opt_value VStr (models.date_joined a)).
Proof. reflexivity. Qed.

(** Reading an optional attribute back out of a serialization. *)
Lemma optional_serialize a :
  Account_ops.optional (Account_ops.serialize a) "address" = models.address a
  ∧ Account_ops.optional (Account_ops.serialize a) "phone_number"
    = models.phone_number a
  ∧ Account_ops.optional (Account_ops.serialize a) "date_joined"
    = models.date_joined a.
Proof.
  unfold Account_ops.optional.
  rewrite serialize_address, serialize_phone_number, serialize_date_joined.
  by destruct (models.address a), (models.phone_number a), (models.date_joined a).
Qed.

Lemma client_post_accounts_json (d : mapping) (w : World) :
  tests.client_open "POST" tests.BASE_URL (Some d) (Some "application/json") w
  = Some (create_accounts
            (mk_request "POST" "/accounts"
               {[ "Content-Type" := "application/json" ]} d "http://localhost") w).
Proof. reflexivity. Qed.

(** X16: the three creation tests of the suite pass in every state of
    the server: [test_create_account] for every account the factory
    makes with a name, an email and a date (the answer is 201, carries a
    Location, and echoes name, email, address, phone number and date of
    the account that was sent), [test_bad_request], and
    [test_unsupported_media_type] for every account. *)
Theorem creation_tests_pass (account : Account) (w : World) :
  tests.has_name_email account = true →
  is_Some (models.date_joined account) →
  tests.test_create_account account w = true
  ∧ tests.test_bad_request w = true
  ∧ ∀ other, tests.test_unsupported_media_type other w = true.
Proof.
  intros Hfake [d Hd]. split; [|split].
  - destruct (serialized_fake_accepted account Hfake)
      as (n & e & Hname & Hemail & Hn & He).
    unfold tests.test_create_account. rewrite client_post_accounts_json.
    rewrite (create_accounts_run_ok
               (mk_request "POST" "/accounts"
                  {[ "Content-Type" := "application/json" ]}
                  (Account_ops.serialize account) "http://localhost")
               w n e (lookup_singleton_eq _ _) Hn He). cbn zeta.
    unfold tests.status_code_of, tests.get_json_object, tests.location_of,
      tests.field_is.
    cbn [fst snd status_of status_code data headers_out List.find json].
    rewrite serialize_name, serialize_email, serialize_address,
      serialize_phone_number, serialize_date_joined.
    destruct (optional_serialize account) as (Haddr & Hphone & Hdate).
    cbn [created populated models.name models.email models.address
           models.phone_number models.date_joined].
    rewrite Haddr, Hphone, Hdate, Hname, Hemail, Hd.
    cbn [default from_option str_opt Account_ops.opt_value].
    rewrite !bool_decide_eq_true_2; [done..|].
    simpl. by eexists.
  - reflexivity.
  - intros other. unfold tests.test_unsupported_media_type.
    change (tests.client_open "POST" tests.BASE_URL
              (Some (Account_ops.serialize other)) (Some "test/html") w)
      with (Some (create_accounts
                    (mk_request "POST" "/accounts" {[ "Content-Type" := "test/html" ]}
                       (Account_ops.serialize other) "http://localhost") w)).
    rewrite create_accounts_rejected; [done|].
    cbn [headers]. rewrite lookup_singleton_eq. discriminate.
Qed.

Lemma creation_tests_pass_witness :
  tests.test_create_account sample.fake_carl sample.with_ann = true.
Proof.
  apply (creation_tests_pass sample.fake_carl sample.with_ann).
  - reflexivity.
  - by eexists.
Defined.

Lemma client_by_id (verb : string) (n : Z) (body : option mapping)
    (ct : option string) (w : World) :
  (0 ≤ n)%Z →
  tests.client_open verb (tests.account_url (Some n)) body ct w
  = (λ m, m w) <$>
    ((λ v, call v (mk_request verb ("/accounts/" ++ pretty n)
                     match ct, body with
                     | Some c, _ => {[ "Content-Type" := c ]}
                     | None, Some _ => {[ "Content-Type" := "application/json" ]}
                     | None, None => ∅
                     end (default ∅ body) "http://localhost")) <$>
     (if String.eqb verb "GET" then Some (view_get_accounts n)
      else if String.eqb verb "PUT" then Some (view_update_accounts n)
      else if String.eqb verb "DELETE" then Some (view_delete_account n)
      else None)).
Proof.
  intros Hn. unfold tests.client_open, dispatch. cbn [method path].
  change (tests.account_url (Some n)) with ("/accounts/" ++ pretty n).
  by rewrite url_map_by_id.
Qed.

Lemma find_single i a :
  models.id a = Some i → List.find (Account_ops.has_id i) [a] = Some a.
Proof. intros Hid. apply (find_appended i []); [|done]. by intros b Hb%elem_of_nil. Qed.

(** X17: the reading tests of the suite pass after [setUp] in every
    state whose next identity is not negative: [test_index],
    [test_health], [test_get_account] and [test_list_accounts] for every
    accounts the factory makes with a name and an email, and
    [test_get_account_not_found]. *)
Theorem reading_tests_pass (fake1 fake2 fake3 : Account) (w : World) :
  (0 ≤ next_id (db w))%Z →
  tests.has_name_email fake1 = true →
  tests.has_name_email fake2 = true →
  tests.has_name_email fake3 = true →
  tests.test_index (tests.setUp w) = true
  ∧ tests.test_health (tests.setUp w) = true
  ∧ tests.test_get_account fake1 (tests.setUp w) = true
  ∧ tests.test_get_account_not_found (tests.setUp w) = true
  ∧ tests.test_list_accounts fake1 fake2 fake3 (tests.setUp w) = true.
Proof.
  intros Hpos H1 H2 H3.
  split; [reflexivity|]. split; [reflexivity|]. split; [|split].
  - destruct (serialized_fake_accepted fake1 H1)
      as (n & e & Hname & Hemail & Hn & He).
    unfold tests.test_get_account, tests._create_accounts.
    cbn [tests.create_accounts_loop]. rewrite client_post_accounts.
    rewrite (create_accounts_run_ok
               (mk_request "POST" "/accounts"
                  {[ "Content-Type" := "application/json" ]}
                  (Account_ops.serialize fake1) "http://localhost")
               (tests.setUp w) n e (lookup_singleton_eq _ _) Hn He). cbn zeta.
    unfold tests.status_code_of, tests.get_json_object.
    cbn [fst snd status_of status_code data negb].
    rewrite bool_decide_eq_true_2 by done. cbn [negb].
    rewrite serialize_id.
    cbn [created populated models.id Account_ops.opt_value tests.as_id app
           tests.setUp db next_id rows today].
    rewrite client_by_id by done. cbn [String.eqb Ascii.eqb Bool.eqb fmap option_fmap
      option_map call models.name].
    change (String.eqb "GET" "GET") with true. cbn [fmap option_fmap option_map call].
    rewrite get_accounts_run. cbn zeta. cbn [db rows app].
    rewrite find_single by reflexivity. unfold created, populated.
    unfold tests.field_is, tests.status_code_of, tests.get_json_object.
    cbn [fst status_of status_code data].
    rewrite serialize_name. cbn [models.name].
    rewrite Hname, !bool_decide_eq_true_2 by done. done.
  - reflexivity.
  - unfold tests.test_list_accounts, tests._create_accounts.
    destruct (create_accounts_loop_ok [fake1; fake2; fake3] [] (tests.setUp w))
      as (w' & -> & Hids & _).
    { repeat constructor; by apply Is_true_true. }
    change (tests.client_open "GET" tests.BASE_URL None None w')
      with (Some (list_accounts w')).
    rewrite list_accounts_run.
    unfold tests.status_code_of, tests.get_json_array.
    cbn [fst status_of status_code data].
    apply (f_equal length) in Hids. rewrite !length_map in Hids.
    cbn [tests.setUp db rows tests.stamped length app] in Hids.
    rewrite length_map, Hids. done.
Qed.

Lemma reading_tests_pass_witness :
  tests.test_get_account sample.fake_carl (tests.setUp sample.with_ann) = true
  ∧ tests.test_list_accounts sample.fake_carl sample.fake_dora sample.fake_carl
      (tests.setUp sample.with_ann) = true.
Proof.
  destruct (reading_tests_pass sample.fake_carl sample.fake_dora sample.fake_carl
              sample.with_ann) as (_ & _ & Hget & _ & Hlist);
    [vm_compute; discriminate | reflexivity | reflexivity | reflexivity |].
  split; [exact Hget | exact Hlist].
Defined.

Lemma create_run_ok (self : Account) (w : World) (n e : string) :
  models.name self = Some n →
  models.email self = Some e →
  Account_ops.create self w
  = (inr (mk_Account (Some (next_id (db w))) (models.name self) (models.email self)
            (models.address self) (models.phone_number self)
            (Some (default (today w) (models.date_joined self)))),
     mk_World
       (mk_Store
          (rows (db w)
             ++ [mk_Account (Some (next_id (db w))) (models.name self)
                   (models.email self) (models.address self)
                   (models.phone_number self)
                   (Some (default (today w) (models.date_joined self)))])
          (next_id (db w) + 1))
       (trace w ++ [DbCreate (next_id (db w))]) (today w) (non_json w)).
Proof.
  intros Hn He. unfold Account_ops.create. rewrite Hn, He. by unfold_M.
Qed.

Lemma find_run (i : Z) (w : World) :
  Account_ops.find i w
  = (inr (List.find (Account_ops.has_id i) (rows (db w))), logged w [DbFind i]).
Proof. unfold Account_ops.find. by unfold_M. Qed.

(** X18: the update and delete tests of the suite pass after [setUp] in
    every state whose next identity is not negative:
    [test_update_existing_account], [test_update_nonexistent_account],
    [test_delete_account_not_found] and
    [test_delete_existing_account]. *)
Theorem update_and_delete_tests_pass (w : World) :
  (0 ≤ next_id (db w))%Z →
  tests.test_update_existing_account (tests.setUp w) = true
  ∧ tests.test_update_nonexistent_account (tests.setUp w) = true
  ∧ tests.test_delete_account_not_found (tests.setUp w) = true
  ∧ tests.test_delete_existing_account (tests.setUp w) = true.
Proof.
  intros Hpos. split; [|split; [reflexivity|split; [reflexivity|]]].
  - unfold tests.test_update_existing_account.
    rewrite (create_run_ok _ (tests.setUp w) "Old Name" "old@example.com")
      by reflexivity.
    cbn [models.id models.name models.email models.address models.phone_number
           models.date_joined tests.setUp db rows next_id today trace app].
    rewrite client_by_id by done.
    change (String.eqb "PUT" "GET") with false.
    change (String.eqb "PUT" "PUT") with true.
    cbn [fmap option_fmap option_map call default from_option].
    set (a := mk_Account _ _ _ _ _ _). set (w1 := mk_World _ _ _ _).
    assert (List.find (Account_ops.has_id (next_id (db w))) (rows (db w1)) = Some a)
      as Hfind by (by apply find_single).
    set (req := mk_request _ _ _ _ _).
    rewrite (update_accounts_run_ok _ req w1 a "Updated Name" "updated@example.com"
               (is_json_exact req (lookup_singleton_eq _ _)) Hfind eq_refl eq_refl).
    cbn zeta.
    unfold tests.status_code_of, tests.get_json_object.
    cbn [fst snd status_of status_code data]. rewrite find_run. cbn [fst db rows].
    rewrite (find_replaced _ _ a) by done.
    rewrite serialize_name, serialize_email. reflexivity.
  - unfold tests.test_delete_existing_account.
    rewrite (create_run_ok _ (tests.setUp w) "Delete Me" "delete@example.com")
      by reflexivity.
    cbn [models.id models.name models.email models.address models.phone_number
           models.date_joined tests.setUp db rows next_id today trace app].
    set (a := mk_Account _ _ _ _ _ _). set (w1 := mk_World _ _ _ _).
    assert (List.find (Account_ops.has_id (next_id (db w))) (rows (db w1)) = Some a)
      as Hfind by (by apply find_single).
    rewrite !find_run. cbn [fst snd]. rewrite Hfind.
    rewrite client_by_id by done.
    change (String.eqb "DELETE" "GET") with false.
    change (String.eqb "DELETE" "PUT") with false.
    change (String.eqb "DELETE" "DELETE") with true.
    cbn [fmap option_fmap option_map call].
    rewrite delete_account_run. cbn zeta. cbn [logged db rows].
    rewrite Hfind. unfold tests.status_code_of.
    cbn [fst snd status_of status_code]. rewrite find_run.
    cbn [fst db rows]. subst a. cbn [models.id].
    rewrite find_filter_same. reflexivity.
Qed.

Lemma update_and_delete_tests_pass_witness :
  tests.test_update_existing_account (tests.setUp sample.with_ann) = true
  ∧ tests.test_delete_existing_account (tests.setUp sample.with_ann) = true.
Proof.
  destruct (update_and_delete_tests_pass sample.with_ann) as (Hup & _ & _ & Hdel);
    [vm_compute; discriminate|].
  split; [exact Hup | exact Hdel].
Defined.
